(** * GlowBot: seeding-time accrual and VIP claims

    A shallow embedding of the two source files of the bot:

    - [src/glowbot/tasks.py]: the periodic task [update_seeders], with its
      time-window gate [is_now], the seeding threshold test and the per-player
      accrual of seeding time;
    - [src/seeding_reward_bot/commands.py]: the slash commands [register],
      [vip] and [claim].

    Durations ([datetime.timedelta]) and instants ([datetime.datetime]) are
    integers counting microseconds, which is the resolution of the Python
    types.  The player table is a list of rows, a row's position standing for
    its primary key.  What a run reads from outside (the configuration, the
    clock, the answers of the RCON client) is an environment record; the
    table and the trace of outbound calls are threaded through a small
    state-and-exception monad. *)

From Stdlib Require Import ZArith Ascii String List Bool Lia.
From stdpp Require Import base option list strings.
Import ListNotations.

Local Open Scope Z_scope.

(** ** Python's [datetime] types *)

(** [datetime.timedelta]: a signed number of microseconds.  Python keeps it
    normalised as [(days, seconds, microseconds)] with
    [0 <= seconds < 86400] and [0 <= microseconds < 1000000]; the accessors
    below read those components. *)
Module timedelta.

Definition t := Z.

Definition of_minutes (m : Z) : t := m * 60 * 1000000.
Definition of_hours (h : Z) : t := h * 3600 * 1000000.

(** [td.seconds]: the seconds component, days excluded. *)
Definition seconds (d : t) : Z := (d mod 86400000000) / 1000000.

(** The number of whole hours a duration holds. *)
Definition whole_hours (d : t) : Z := d / 3600000000.

End timedelta.

(** [datetime.datetime], aware and in UTC: microseconds since the epoch.
    The years 1 to 9999 that bound Python's type are not modelled: the
    arithmetic on instants is that of the integers. *)
Module datetime.

Definition t := Z.

(** Days from 1970-01-01 to the given date of the proleptic Gregorian
    calendar. *)
Definition days_from_civil (year month day : Z) : Z :=
  let y := if month <=? 2 then year - 1 else year in
  let era := y / 400 in
  let yoe := y - era * 400 in
  let mp := (month + 9) mod 12 in
  let doy := (153 * mp + 2) / 5 + day - 1 in
  let doe := yoe * 365 + yoe / 4 - yoe / 100 + doy in
  era * 146097 + doe - 719468.

(** [datetime(year=y, month=m, day=d, tzinfo=timezone.utc)] *)
Definition utc (year month day : Z) : t :=
  days_from_civil year month day * 86400000000.

(** [int(d.timestamp())]: the seconds since the epoch, cut toward zero. *)
Definition timestamp (d : t) : Z := d ÷ 1000000.

(** [d.strftime('%Y-%m-%dT%H:%M:%S%z')]: the text has no field for the
    microsecond, so it denotes the instant cut to the whole second.  The text
    is represented by that instant. *)
Definition strftime (d : t) : t := d / 1000000 * 1000000.

End datetime.

(** [datetime.time]: a time of day, with the UTC offset of its [tzinfo];
    a time without [tzinfo], a naive one, has the offset [None]. *)
Module time.

Record t := Time {
  hour : Z;
  minute : Z;
  second : Z;
  microsecond : Z;
  utcoffset : option timedelta.t;
}.

(** [time(hour, minute, second, microsecond)]: [tzinfo] defaults to [None]. *)
Definition mk (hour minute second microsecond : Z) : t :=
  Time hour minute second microsecond None.

(** [datetime.time()]: the time of day of a [datetime], its [tzinfo]
    dropped. *)
Definition naive (a : t) : t :=
  Time (hour a) (minute a) (second a) (microsecond a) None.

(** The order of the tuples [(hour, minute, second, microsecond)]. *)
Definition compare (a b : t) : comparison :=
  match hour a ?= hour b with
  | Eq =>
      match minute a ?= minute b with
      | Eq =>
          match second a ?= second b with
          | Eq => microsecond a ?= microsecond b
          | c => c
          end
      | c => c
      end
  | c => c
  end.

Definition leb (a b : t) : bool :=
  match compare a b with Gt => false | _ => true end.

Definition ltb (a b : t) : bool :=
  match compare a b with Lt => true | _ => false end.

(** The fields of a [time] object are range-checked by its constructor. *)
Definition valid (a : t) : Prop :=
  0 <= hour a < 24 /\ 0 <= minute a < 60 /\ 0 <= second a < 60
  /\ 0 <= microsecond a < 1000000.

(** Microseconds since midnight. *)
Definition since_midnight (a : t) : Z :=
  ((hour a * 60 + minute a) * 60 + second a) * 1000000 + microsecond a.

(** Seconds since midnight, less the days and seconds of the offset. *)
Definition offset_seconds (a : t) (offset : timedelta.t) : Z :=
  hour a * 3600 + minute a * 60 + second a - offset / 1000000.

(** The comparison behind [<=] and [<] on two [time] objects, [None] where
    Python raises [TypeError].  Two naive times, and two aware times of the
    same offset, compare by their fields; two aware times of different
    offsets compare by their seconds less the offset, then by the
    microsecond; a naive time does not compare with an aware one. *)
Definition cmp (a b : t) : option comparison :=
  match utcoffset a, utcoffset b with
  | None, None => Some (compare a b)
  | Some offset1, Some offset2 =>
      if offset1 =? offset2 then Some (compare a b)
      else
        Some
          match offset_seconds a offset1 ?= offset_seconds b offset2 with
          | Eq => microsecond a ?= microsecond b
          | c => c
          end
  | _, _ => None
  end.

(** [a <= b] *)
Definition le (a b : t) : option bool :=
  match cmp a b with
  | Some Gt => Some false
  | Some _ => Some true
  | None => None
  end.

(** [a < b] *)
Definition lt (a b : t) : option bool :=
  match cmp a b with
  | Some Lt => Some true
  | Some _ => Some false
  | None => None
  end.

End time.

(** ** The player table *)

(** A row of the table behind the ORM class [HLL_Player]. *)
Record HLL_Player := {
  steam_id_64 : string;
  player_name : string;
  discord_id : option Z;
  seeding_time_balance : timedelta.t;
  total_seeding_time : timedelta.t;
  last_seed_check : datetime.t;
}.

(** An entry of the list the RCON client returns for a server. *)
Module player.
Record t := mk { name : string; steam_id_64 : string }.
End player.

(** [sub in s] on strings, the test behind the [__contains] lookup. *)
Fixpoint contains (sub s : string) : bool :=
  String.prefix sub s
  || match s with
     | EmptyString => false
     | String _ s' => contains sub s'
     end.

(** ** Replies, log records and outbound calls *)

(** The body of the reply that ends a completed [claim]. *)
Inductive claim_body :=
| NoNeedToConvert
| Added (grant_value : Z) (expires : Z).

(** The texts the commands answer with, one constructor per text, carrying
    the values formatted into it. *)
Inductive reply :=
| MultiplePlayersFound
| RegisteredToYou
| AlreadyRegisteredToYou
| RegisteredToSomeoneElse
| UnknownDiscordId
| VipStatusDiffers
| NoVipRecord
| VipExpired
| VipDoesNotExpire
| VipExpires (at_ : Z)
| ClaimUsage (vip_value : Z)
| CannotFindId
| NotEnoughBankedTime (hours banked : Z)
| GrantProblem
| ClaimDone (body : claim_body) (remaining : timedelta.t).

(** The records written with [logger.error]; [logger.debug] is left out. *)
Inductive log_error :=
| CannotSetSeedingHours
| MultipleSteamIds (steam : string)
| FailedUpdatingRecord (name : string)
| FailedRewardMessage (steam : string)
| LookupReturnedMultiple
| ProblemAssigningVip (rcon : string).

Inductive presence_status := Idle | Online.

Inductive presence_text :=
| OutsideSeedingWindow
| Seeding (count threshold : Z)
| SeedingDone.

(** What leaves the bot, in the order it happens. *)
Inductive event :=
| LogError (e : log_error)
| ChangePresence (status : presence_status) (text : presence_text)
| GetPlayerList
| SendPlayerMessage (rcon steam message : string)
| GetVip (steam : string)
| GrantVip (name steam : string) (expiration : datetime.t)
| Respond (r : reply).

(** ** State and exceptions *)

Inductive exn := ValueError | TypeError | IndexError | SaveError.

Inductive result (A : Type) :=
| Ok (a : A)
| Raised (e : exn).
Arguments Ok {A} a.
Arguments Raised {A} e.

Record world := World {
  table : list HLL_Player;
  trace : list event;
}.

Definition M (A : Type) : Type := world -> result A * world.

#[export] Instance M_ret : MRet M := fun A a w => (Ok a, w).

#[export] Instance M_bind : MBind M := fun A B k m w =>
  match m w with
  | (Ok a, w') => k a w'
  | (Raised e, w') => (Raised e, w')
  end.

Definition raise {A} (e : exn) : M A := fun w => (Raised e, w).

(** [try: m except ...: h] *)
Definition try_except {A} (m : M A) (h : exn -> M A) : M A :=
  fun w =>
    match m w with
    | (Ok a, w') => (Ok a, w')
    | (Raised e, w') => h e w'
    end.

Definition emit (e : event) : M unit :=
  fun w => (Ok tt, World (table w) (trace w ++ [e])).

(** [for x in l: body x] *)
Fixpoint for_each {A} (l : list A) (body : A -> M unit) : M unit :=
  match l with
  | [] => mret tt
  | x :: l' => body x;; for_each l' body
  end.

(** The rows with their primary keys. *)
Definition rows (tbl : list HLL_Player) : list (nat * HLL_Player) :=
  imap pair tbl.

(** [await HLL_Player.filter(...)] *)
Definition HLL_Player_filter (p : HLL_Player -> bool)
  : M (list (nat * HLL_Player)) :=
  fun w => (Ok (List.filter (fun r => p (snd r)) (rows (table w))), w).

(** [await row.save()] on a row built in memory: an insert.  [accepts] tells
    whether the table takes the write; a refused write raises. *)
Definition save_new (accepts : HLL_Player -> bool) (row : HLL_Player)
  : M unit :=
  fun w =>
    if accepts row then (Ok tt, World (table w ++ [row]) (trace w))
    else (Raised SaveError, w).

(** [await row.save()] on a row read from the table: an update in place. *)
Definition save (accepts : HLL_Player -> bool) (pk : nat) (row : HLL_Player)
  : M unit :=
  fun w =>
    if accepts row then (Ok tt, World (<[pk := row]> (table w)) (trace w))
    else (Raised SaveError, w).

(** ** [src/glowbot/tasks.py] *)

Module Tasks.

(** The keys of [global_config['hell_let_loose']] the task reads.  A window
    bound that is not set is [None]. *)
Record config := {
  seeding_start_time_utc : option string;
  seeding_end_time_utc : option string;
  seeding_threshold : Z;
  allow_seeder_reward_message : bool;
  seeder_reward_message : string;
}.

(** What one run of the task sees of the outside. *)
Record env := {
  global_config : config;
  (** the time of day of [datetime.now(timezone.utc)] *)
  time_now : time.t;
  (** [datetime.now()] *)
  now : datetime.t;
  (** [self.bot.ws is not None] *)
  ws_connected : bool;
  (** the answer of [self.client.get_player_list()] *)
  player_lists : list (string * list player.t);
  (** the answer of [self.client.send_player_message(rcon, steam, text)] *)
  message_sent : string -> string -> string -> bool;
  (** whether the table takes the write of a row *)
  table_accepts : HLL_Player -> bool;
}.

Definition SEEDING_INCREMENT_TIMER : Z := 3.

(** [a <= b] and [a < b] on [time] objects, as the task evaluates them. *)
Definition time_le (a b : time.t) : M bool :=
  match time.le a b with
  | Some r => mret r
  | None => raise TypeError
  end.

Definition time_lt (a b : time.t) : M bool :=
  match time.lt a b with
  | Some r => mret r
  | None => raise TypeError
  end.

(** The nested function [is_now(start, end, now)].  The chained comparison
    and the [or] evaluate their second operand only where the first does not
    decide. *)
Definition is_now (start end_ now : time.t) : M bool :=
  ordered ← time_le start end_;
  if ordered : bool then
    from_start ← time_le start now;
    if from_start : bool then time_le now end_ else mret false
  else
    from_start ← time_le start now;
    if from_start : bool then mret true else time_lt now end_.

Section WithParser.

(** [time.fromisoformat] on a string: the time it denotes, aware when the
    text carries a UTC offset, or [None] where Python raises [ValueError]. *)
Variable fromisoformat : string -> option time.t.

(** [time.fromisoformat(v)] on a configuration value: [None] is not a string
    and raises [TypeError]. *)
Definition time_fromisoformat (v : option string) : M time.t :=
  match v with
  | None => raise TypeError
  | Some s =>
      match fromisoformat s with
      | Some t => mret t
      | None => raise ValueError
      end
  end.

Variable E : env.

(** [if self.bot.ws is not None: await self.bot.change_presence(...)] *)
Definition change_presence (status : presence_status) (text : presence_text)
  : M unit :=
  if ws_connected E then emit (ChangePresence status text) else mret tt.

(** The body of the loop over the players of a seeding server. *)
Definition seed_player (rcon_server_url : string) (player : player.t)
  : M unit :=
  seeder_query ← HLL_Player_filter
    (fun row => contains (player.steam_id_64 player) (steam_id_64 row));
  let player_name_ := player.name player in
  let steam_id_64_ := player.steam_id_64 player in
  match seeder_query with
  | [] =>
      save_new (table_accepts E)
        {| steam_id_64 := steam_id_64_;
           player_name := player_name_;
           discord_id := None;
           seeding_time_balance := timedelta.of_minutes 0;
           total_seeding_time := timedelta.of_minutes 0;
           last_seed_check := now E |}
  | [(pk, seeder0)] =>
      let additional_time := timedelta.of_minutes SEEDING_INCREMENT_TIMER in
      let old_seed_balance := seeding_time_balance seeder0 in
      let seeder :=
        {| steam_id_64 := steam_id_64 seeder0;
           player_name := player_name seeder0;
           discord_id := discord_id seeder0;
           seeding_time_balance :=
             seeding_time_balance seeder0 + additional_time;
           total_seeding_time := total_seeding_time seeder0 + additional_time;
           last_seed_check := now E |} in
      try_except (save (table_accepts E) pk seeder)
        (fun _ => emit (LogError (FailedUpdatingRecord (player_name seeder))));;
      if allow_seeder_reward_message (global_config E) then
        let m := timedelta.seconds (seeding_time_balance seeder) / 60 in
        let new_hourly := m / 60 in
        let m := timedelta.seconds old_seed_balance / 60 in
        let old_hourly := m / 60 in
        if new_hourly >? old_hourly then
          emit (SendPlayerMessage rcon_server_url (steam_id_64 seeder)
                  (seeder_reward_message (global_config E)));;
          if message_sent E rcon_server_url (steam_id_64 seeder)
               (seeder_reward_message (global_config E))
          then mret tt
          else emit (LogError (FailedRewardMessage (steam_id_64 seeder)))
        else mret tt
      else mret tt
  | _ => emit (LogError (MultipleSteamIds steam_id_64_))
  end.

(** The body of the loop over the servers. *)
Definition seed_server (server : string * list player.t) : M unit :=
  let rcon_server_url := fst server in
  let player_list := snd server in
  if Z.of_nat (length player_list) <? seeding_threshold (global_config E)
  then
    for_each player_list (seed_player rcon_server_url);;
    change_presence Online
      (Seeding (Z.of_nat (length player_list))
         (seeding_threshold (global_config E)))
  else change_presence Idle SeedingDone.

(** The part of [update_seeders] after the gate. *)
Definition poll_servers : M unit :=
  emit GetPlayerList;;
  for_each (player_lists E) seed_server.

(** The [try] block of the gate.  It yields [true] when it ends in
    [return]. *)
Definition outside_seeding_hours : M bool :=
  let seeding_start_time_str := seeding_start_time_utc (global_config E) in
  let seeding_end_time_str := seeding_end_time_utc (global_config E) in
  seeding_start_time ← time_fromisoformat seeding_start_time_str;
  seeding_end_time ← time_fromisoformat seeding_end_time_str;
  let time_now_ := time.naive (time_now E) in
  active ← is_now seeding_start_time seeding_end_time time_now_;
  if negb active then
    change_presence Idle OutsideSeedingWindow;;
    mret true
  else mret false.

Definition update_seeders : M unit :=
  returned ← try_except outside_seeding_hours
    (fun e =>
       match e with
       | ValueError => emit (LogError CannotSetSeedingHours);; mret false
       | TypeError => mret false
       | _ => raise e
       end);
  if returned : bool then mret tt else poll_servers.



End WithParser.

End Tasks.

(** ** [src/seeding_reward_bot/commands.py] *)

Module Commands.

(** A VIP entry as the RCON client reports it for one server.  Of the
    entry only the key the commands read is kept; the expiration is the text
    the server sent, or [None]. *)
Record vip_info := { vip_expiration : option string }.

#[export] Instance vip_info_eq_dec : EqDecision vip_info.
Proof. solve_decision. Defined.

(** The key of [global_config['hell_let_loose']] the commands read: the
    hours of VIP one hour of seeding is worth, a whole number. *)
Record config := { seeder_vip_reward_hours : Z }.

(** [ctx.author] *)
Record author := { id : Z; name : string }.

(** What one invocation of a command sees of the outside. *)
Record env := {
  global_config : config;
  (** [datetime.now(timezone.utc)] *)
  now : datetime.t;
  (** the answer of [self.client.get_vip(steam)]: server and entry, an entry
      of [None] where the server has no record *)
  vip_dict : string -> list (string * option vip_info);
  (** the answer of [self.client.grant_vip(name, steam, expiration)]: server
      and whether the grant went through *)
  grant_results : string -> string -> datetime.t -> list (string * bool);
  (** whether the table takes the write of a row *)
  table_accepts : HLL_Player -> bool;
}.

(** [datetime(year=2200, month=1, day=1, tzinfo=timezone.utc)] *)
Definition far_future : datetime.t := datetime.utc 2200 1 1.

(** [all(val != vip_entries[0] for val in vip_entries)].  The generator reads
    [vip_entries[0]] once per element, so never on an empty list. *)
Definition all_differ_from_first (vip_entries : list (option vip_info))
  : bool :=
  forallb
    (fun val =>
       match vip_entries with
       | first :: _ => bool_decide (val <> first)
       | [] => true
       end)
    vip_entries.

(** [vip_entries.pop()]: the last element. *)
Definition pop (vip_entries : list (option vip_info))
  : M (option vip_info) :=
  match last vip_entries with
  | Some vip => mret vip
  | None => raise IndexError
  end.

(** The expiration text of an entry, [None] when
    [vip is None or vip['vip_expiration'] == None]. *)
Definition expiration_text (vip : option vip_info) : option string :=
  match vip with
  | None => None
  | Some v => vip_expiration v
  end.

Definition respond (r : reply) : M unit := emit (Respond r).

(** Modelled from the spec: [get_player_by_discord_id] of the module
    [seeding_reward_bot.db], which is not among the sources.  The spec gives
    it as the lookup by [discordId] that returns the record or not-found, with
    at most one record per [discordId]; the first matching row is taken. *)
Definition get_player_by_discord_id (discord : Z)
  : M (option (nat * HLL_Player)) :=
  fun w =>
    (Ok (List.find (fun r => bool_decide (discord_id (snd r) = Some discord))
           (rows (table w))), w).

Section WithClient.

(** [rcon_time_str_to_datetime] of the module
    [seeding_reward_bot.hll_rcon_client]: the instant an expiration text
    denotes. *)
Variable rcon_time_str_to_datetime : string -> datetime.t.

Variable E : env.

Definition get_vip (steam : string) : M (list (string * option vip_info)) :=
  emit (GetVip steam);; mret (vip_dict E steam).

Definition grant_vip (name steam : string) (expiration : datetime.t)
  : M (list (string * bool)) :=
  emit (GrantVip name steam expiration);;
  mret (grant_results E name steam expiration).

(** [/hll register] *)
Definition register (ctx : author) (steam64 : string) : M unit :=
  query_result ← HLL_Player_filter
    (fun row => String.eqb (steam_id_64 row) steam64);
  match query_result with
  | _ :: _ :: _ =>
      emit (LogError LookupReturnedMultiple);;
      respond MultiplePlayersFound
  | [] =>
      let player :=
        {| steam_id_64 := steam64;
           player_name := name ctx;
           discord_id := Some (id ctx);
           seeding_time_balance := timedelta.of_minutes 0;
           total_seeding_time := timedelta.of_minutes 0;
           last_seed_check := now E |} in
      save_new (table_accepts E) player;;
      respond RegisteredToYou
  | [(pk, player)] =>
      match discord_id player with
      | None =>
          let player :=
            {| steam_id_64 := steam_id_64 player;
               player_name := player_name player;
               discord_id := Some (id ctx);
               seeding_time_balance := seeding_time_balance player;
               total_seeding_time := total_seeding_time player;
               last_seed_check := last_seed_check player |} in
          save (table_accepts E) pk player;;
          respond RegisteredToYou
      | Some owner =>
          if owner =? id ctx then respond AlreadyRegisteredToYou
          else respond RegisteredToSomeoneElse
      end
  end.

(** [/hll vip] *)
Definition vip (ctx : author) : M unit :=
  player ← get_player_by_discord_id (id ctx);
  match player with
  | None => respond UnknownDiscordId
  | Some (_, player) =>
      vip_dict ← get_vip (steam_id_64 player);
      let vip_entries := map snd vip_dict in
      if all_differ_from_first vip_entries then respond VipStatusDiffers
      else
        vip ← pop vip_entries;
        match expiration_text vip with
        | None => respond NoVipRecord
        | Some text =>
            let expiration := rcon_time_str_to_datetime text in
            if expiration <? now E then respond VipExpired
            else if expiration >=? far_future then respond VipDoesNotExpire
            else respond (VipExpires (datetime.timestamp expiration))
        end
  end.

(** [/hll claim] *)
Definition claim (ctx : author) (hours : option Z) : M unit :=
  match hours with
  | None =>
      respond (ClaimUsage (seeder_vip_reward_hours (global_config E)))
  | Some hours =>
      player ← get_player_by_discord_id (id ctx);
      match player with
      | None => respond CannotFindId
      | Some (pk, player) =>
          let banked :=
            timedelta.seconds (seeding_time_balance player) / 3600 in
          if hours >? banked then respond (NotEnoughBankedTime hours banked)
          else
            vip_dict ← get_vip (steam_id_64 player);
            let vip_entries := map snd vip_dict in
            if all_differ_from_first vip_entries
            then respond VipStatusDiffers
            else
              vip ← pop vip_entries;
              let grant_value :=
                seeder_vip_reward_hours (global_config E) * hours in
              let expiration :=
                match expiration_text vip with
                | None => now E + timedelta.of_hours grant_value
                | Some text =>
                    let cur_expiration := rcon_time_str_to_datetime text in
                    let cur_expiration :=
                      if cur_expiration <? now E then now E
                      else cur_expiration in
                    cur_expiration + timedelta.of_hours grant_value
                end in
              if expiration >=? far_future then
                save (table_accepts E) pk player;;
                respond
                  (ClaimDone NoNeedToConvert (seeding_time_balance player))
              else
                result_dict ← grant_vip (player_name player)
                  (steam_id_64 player) (datetime.strftime expiration);
                match List.find (fun r => negb (snd r)) result_dict with
                | Some (rcon, _) =>
                    emit (LogError (ProblemAssigningVip rcon));;
                    respond GrantProblem
                | None =>
                    let player :=
                      {| steam_id_64 := steam_id_64 player;
                         player_name := player_name player;
                         discord_id := discord_id player;
                         seeding_time_balance :=
                           seeding_time_balance player
                           - timedelta.of_hours hours;
                         total_seeding_time := total_seeding_time player;
                         last_seed_check := last_seed_check player |} in
                    save (table_accepts E) pk player;;
                    respond
                      (ClaimDone
                         (Added grant_value (datetime.timestamp expiration))
                         (seeding_time_balance player))
                end
          end
  end.

(** The instant a claim extends: the expiration of the entry when it has one
    that is not in the past, the current instant otherwise. *)
Definition expiration_base (vip : option vip_info) : datetime.t :=
  match expiration_text vip with
  | None => now E
  | Some text =>
      let cur_expiration := rcon_time_str_to_datetime text in
      if cur_expiration <? now E then now E else cur_expiration
  end.

(** The expiration a claim of [hours] computes from the entry [vip]. *)
Definition claimed_expiration (vip : option vip_info) (hours : Z)
  : datetime.t :=
  expiration_base vip
  + timedelta.of_hours (seeder_vip_reward_hours (global_config E) * hours).

(** A row after the spend of [hours]. *)
Definition spend (hours : Z) (player : HLL_Player) : HLL_Player :=
  {| steam_id_64 := steam_id_64 player;
     player_name := player_name player;
     discord_id := discord_id player;
     seeding_time_balance :=
       seeding_time_balance player - timedelta.of_hours hours;
     total_seeding_time := total_seeding_time player;
     last_seed_check := last_seed_check player |}.

End WithClient.

End Commands.

(** ** Sample inputs *)

Module Sample.

Definition digit (c : Ascii.ascii) : option Z :=
  let n := Z.of_nat (Ascii.nat_of_ascii c) - 48 in
  if (0 <=? n) && (n <=? 9) then Some n else None.

(** [time.fromisoformat] on the texts of the form [HH:MM]; any other text is
    refused here. *)
Definition hh_mm (s : string) : option time.t :=
  match s with
  | String a (String b (String ":"%char (String c (String d EmptyString)))) =>
      match digit a, digit b, digit c, digit d with
      | Some a, Some b, Some c, Some d =>
          let h := 10 * a + b in
          let m := 10 * c + d in
          if (h <? 24) && (m <? 60) then Some (time.mk h m 0 0) else None
      | _, _, _, _ => None
      end
  | _ => None
  end.

(** [time.fromisoformat] on the texts of the forms [HH:MM], [HH:MM+HH:MM]
    and [HH:MM-HH:MM]; any other text is refused here. *)
Definition hh_mm_offset (s : string) : option time.t :=
  if (String.length s =? 11)%nat then
    match
      hh_mm (String.substring 0 5 s), String.get 5 s,
      hh_mm (String.substring 6 5 s)
    with
    | Some a, Some sign, Some offset =>
        let minutes := time.hour offset * 60 + time.minute offset in
        let aware := fun m =>
          time.Time (time.hour a) (time.minute a) (time.second a)
            (time.microsecond a) (Some (timedelta.of_minutes m)) in
        if Ascii.eqb sign "+" then Some (aware minutes)
        else if Ascii.eqb sign "-" then Some (aware (- minutes))
        else None
    | _, _, _ => None
    end
  else hh_mm s.

Definition ann_steam : string := "76561198000000001".

Definition ann_session : player.t := player.mk "Ann" ann_steam.

(** A run of the task at the instant [at_], with one server of one player
    under a threshold of 40. *)
Definition tick (start end_ : option string) (at_ : datetime.t) : Tasks.env :=
  {| Tasks.global_config :=
       {| Tasks.seeding_start_time_utc := start;
          Tasks.seeding_end_time_utc := end_;
          Tasks.seeding_threshold := 40;
          Tasks.allow_seeder_reward_message := true;
          Tasks.seeder_reward_message := "Thanks for seeding" |};
     Tasks.time_now := time.mk 12 0 0 0;
     Tasks.now := at_;
     Tasks.ws_connected := true;
     Tasks.player_lists := [("rcon1", [ann_session])];
     Tasks.message_sent := fun _ _ _ => true;
     Tasks.table_accepts := fun _ => true |}.

(** Ann's row with a given balance. *)
Definition ann_row (balance : timedelta.t) : HLL_Player :=
  {| steam_id_64 := ann_steam;
     player_name := "Ann";
     discord_id := Some 42;
     seeding_time_balance := balance;
     total_seeding_time := balance;
     last_seed_check := 0 |}.

Definition ann : Commands.author :=
  {| Commands.id := 42; Commands.name := "Ann" |}.

(** [rcon_time_str_to_datetime] on the expiration texts of the examples. *)
Definition rcon_times (text : string) : datetime.t :=
  if String.eqb text "2024-01-02T00:00:00" then datetime.utc 2024 1 2
  else if String.eqb text "2199-12-31T12:00:00"
       then datetime.utc 2199 12 31 + timedelta.of_hours 12
       else 0.

Definition expires (text : string) : option Commands.vip_info :=
  Some {| Commands.vip_expiration := Some text |}.

(** An invocation on 2024-01-01 at a rate of one hour of VIP per hour of
    seeding, with the answers of the two servers to [get_vip] and to
    [grant_vip]. *)
Definition call (vip1 vip2 : option Commands.vip_info) (ok1 ok2 : bool)
  : Commands.env :=
  {| Commands.global_config := {| Commands.seeder_vip_reward_hours := 1 |};
     Commands.now := datetime.utc 2024 1 1;
     Commands.vip_dict := fun _ => [("rcon1", vip1); ("rcon2", vip2)];
     Commands.grant_results := fun _ _ _ => [("rcon1", ok1); ("rcon2", ok2)];
     Commands.table_accepts := fun _ => true |}.

End Sample.

(** ** Rows, tables and outcomes compared *)

(** The row [seed_player] builds for a player seen for the first time. *)
Definition first_row (E : Tasks.env) (p : player.t) : HLL_Player :=
  {| steam_id_64 := player.steam_id_64 p;
     player_name := player.name p;
     discord_id := None;
     seeding_time_balance := timedelta.of_minutes 0;
     total_seeding_time := timedelta.of_minutes 0;
     last_seed_check := Tasks.now E |}.

(** A row after [seed_player] has accounted one increment to it. *)
Definition credit (E : Tasks.env) (seeder : HLL_Player) : HLL_Player :=
  {| steam_id_64 := steam_id_64 seeder;
     player_name := player_name seeder;
     discord_id := discord_id seeder;
     seeding_time_balance :=
       seeding_time_balance seeder
       + timedelta.of_minutes Tasks.SEEDING_INCREMENT_TIMER;
     total_seeding_time :=
       total_seeding_time seeder
       + timedelta.of_minutes Tasks.SEEDING_INCREMENT_TIMER;
     last_seed_check := Tasks.now E |}.

(** The row [register] builds for a Steam id that has none. *)
Definition registered_row (E : Commands.env) (ctx : Commands.author)
  (steam64 : string) : HLL_Player :=
  {| steam_id_64 := steam64;
     player_name := Commands.name ctx;
     discord_id := Some (Commands.id ctx);
     seeding_time_balance := timedelta.of_minutes 0;
     total_seeding_time := timedelta.of_minutes 0;
     last_seed_check := Commands.now E |}.

(** [new] is [old] with the same identity and the same amount of time added
    to the balance and to the total, none taken away. *)
Definition row_grows (old new : HLL_Player) : Prop :=
  steam_id_64 new = steam_id_64 old
  /\ player_name new = player_name old
  /\ discord_id new = discord_id old
  /\ seeding_time_balance old <= seeding_time_balance new
  /\ seeding_time_balance new - seeding_time_balance old
     = total_seeding_time new - total_seeding_time old.

(** Every row of [tbl] is still in [tbl'], under its key, and has grown. *)
Definition table_grows (tbl tbl' : list HLL_Player) : Prop :=
  forall pk row,
    tbl !! pk = Some row ->
    exists row', tbl' !! pk = Some row' /\ row_grows row row'.

(** No balance and no total of the table is negative. *)
Definition balances_nonneg (tbl : list HLL_Player) : Prop :=
  Forall
    (fun row => 0 <= seeding_time_balance row /\ 0 <= total_seeding_time row)
    tbl.

(** A run that returns, or raises [SaveError] and nothing else. *)
Definition at_most_save_error {A} (r : result A) : Prop :=
  match r with
  | Ok _ => True
  | Raised e => e = SaveError
  end.

(** The ways on after the balance and the agreement checks, with the entry
    [vip] taken from the list. *)
Inductive checked_path (decode : string -> datetime.t) (E : Commands.env)
  (hours : Z) (w : world)
  : nat -> HLL_Player -> option Commands.vip_info -> result unit * world
    -> Prop :=
| PathNoNeed pk player vip :
    Commands.far_future <= Commands.claimed_expiration decode E vip hours ->
    Commands.table_accepts E player = true ->
    checked_path decode E hours w pk player vip
      (Ok tt,
       World (table w)
         (trace w ++
          [ GetVip (steam_id_64 player);
            Respond
              (ClaimDone NoNeedToConvert (seeding_time_balance player)) ]))
| PathNoNeedRefused pk player vip :
    Commands.far_future <= Commands.claimed_expiration decode E vip hours ->
    Commands.table_accepts E player = false ->
    checked_path decode E hours w pk player vip
      (Raised SaveError,
       World (table w) (trace w ++ [GetVip (steam_id_64 player)]))
| PathGrantProblem pk player vip rcon ok :
    Commands.claimed_expiration decode E vip hours < Commands.far_future ->
    List.find (fun r => negb (snd r))
      (Commands.grant_results E (player_name player) (steam_id_64 player)
         (datetime.strftime (Commands.claimed_expiration decode E vip hours)))
    = Some (rcon, ok) ->
    checked_path decode E hours w pk player vip
      (Ok tt,
       World (table w)
         (trace w ++
          [ GetVip (steam_id_64 player);
            GrantVip (player_name player) (steam_id_64 player)
              (datetime.strftime
                 (Commands.claimed_expiration decode E vip hours));
            LogError (ProblemAssigningVip rcon);
            Respond GrantProblem ]))
| PathSpent pk player vip :
    Commands.claimed_expiration decode E vip hours < Commands.far_future ->
    List.find (fun r => negb (snd r))
      (Commands.grant_results E (player_name player) (steam_id_64 player)
         (datetime.strftime (Commands.claimed_expiration decode E vip hours)))
    = None ->
    Commands.table_accepts E (Commands.spend hours player) = true ->
    checked_path decode E hours w pk player vip
      (Ok tt,
       World (<[pk := Commands.spend hours player]> (table w))
         (trace w ++
          [ GetVip (steam_id_64 player);
            GrantVip (player_name player) (steam_id_64 player)
              (datetime.strftime
                 (Commands.claimed_expiration decode E vip hours));
            Respond
              (ClaimDone
                 (Added
                    (Commands.seeder_vip_reward_hours
                       (Commands.global_config E) * hours)
                    (datetime.timestamp
                       (Commands.claimed_expiration decode E vip hours)))
                 (seeding_time_balance player - timedelta.of_hours hours)) ]))
| PathSpentRefused pk player vip :
    Commands.claimed_expiration decode E vip hours < Commands.far_future ->
    List.find (fun r => negb (snd r))
      (Commands.grant_results E (player_name player) (steam_id_64 player)
         (datetime.strftime (Commands.claimed_expiration decode E vip hours)))
    = None ->
    Commands.table_accepts E (Commands.spend hours player) = false ->
    checked_path decode E hours w pk player vip
      (Raised SaveError,
       World (table w)
         (trace w ++
          [ GetVip (steam_id_64 player);
            GrantVip (player_name player) (steam_id_64 player)
              (datetime.strftime
                 (Commands.claimed_expiration decode E vip hours)) ])).

(** The ways a run of [claim] with an amount can go, each with the world it
    ends in. *)
Inductive claim_path (decode : string -> datetime.t) (E : Commands.env)
  (ctx : Commands.author) (hours : Z) (w : world)
  : result unit * world -> Prop :=
| PathNotFound :
    Commands.get_player_by_discord_id (Commands.id ctx) w = (Ok None, w) ->
    claim_path decode E ctx hours w
      (Ok tt, World (table w) (trace w ++ [Respond CannotFindId]))
| PathNotEnough pk player :
    Commands.get_player_by_discord_id (Commands.id ctx) w
    = (Ok (Some (pk, player)), w) ->
    (hours >? timedelta.seconds (seeding_time_balance player) / 3600) = true ->
    claim_path decode E ctx hours w
      (Ok tt,
       World (table w)
         (trace w ++
          [ Respond
              (NotEnoughBankedTime hours
                 (timedelta.seconds (seeding_time_balance player) / 3600)) ]))
| PathDiffers pk player :
    Commands.get_player_by_discord_id (Commands.id ctx) w
    = (Ok (Some (pk, player)), w) ->
    (hours >? timedelta.seconds (seeding_time_balance player) / 3600) = false ->
    Commands.all_differ_from_first
      (map snd (Commands.vip_dict E (steam_id_64 player))) = true ->
    claim_path decode E ctx hours w
      (Ok tt,
       World (table w)
         (trace w ++ [GetVip (steam_id_64 player); Respond VipStatusDiffers]))
| PathChecked pk player vip r :
    Commands.get_player_by_discord_id (Commands.id ctx) w
    = (Ok (Some (pk, player)), w) ->
    (hours >? timedelta.seconds (seeding_time_balance player) / 3600) = false ->
    Commands.all_differ_from_first
      (map snd (Commands.vip_dict E (steam_id_64 player))) = false ->
    last (map snd (Commands.vip_dict E (steam_id_64 player))) = Some vip ->
    checked_path decode E hours w pk player vip r ->
    claim_path decode E ctx hours w r.

Example far_future_epoch : datetime.utc 2200 1 1 = 7258118400 * 1000000.
Proof. reflexivity. Qed.

Example epoch_is_zero : datetime.utc 1970 1 1 = 0.
Proof. reflexivity. Qed.

Example seconds_drops_days :
  timedelta.seconds (timedelta.of_hours 25) = 3600.
Proof. reflexivity. Qed.

(** ** The ordering of times of day *)

(** Case analysis on the four field comparisons of [time.compare], the later
    ones only where the earlier fields are equal. *)
Ltac compare_fields a b :=
  destruct (Z.compare_spec (time.hour a) (time.hour b));
    [destruct (Z.compare_spec (time.minute a) (time.minute b));
      [destruct (Z.compare_spec (time.second a) (time.second b));
        [destruct (Z.compare_spec (time.microsecond a) (time.microsecond b))
        |..]
      |..]
    |..].

Lemma time_leb_since_midnight (a b : time.t) :
  time.valid a -> time.valid b ->
  time.leb a b = true <-> time.since_midnight a <= time.since_midnight b.
Proof.
  unfold time.valid, time.leb, time.compare, time.since_midnight.
  intros Ha Hb.
  compare_fields a b; split; intros; try reflexivity; try discriminate; nia.
Qed.

Lemma time_ltb_since_midnight (a b : time.t) :
  time.valid a -> time.valid b ->
  time.ltb a b = true <-> time.since_midnight a < time.since_midnight b.
Proof.
  unfold time.valid, time.ltb, time.compare, time.since_midnight.
  intros Ha Hb.
  compare_fields a b; split; intros; try reflexivity; try discriminate; nia.
Qed.

Lemma time_leb_refl (a : time.t) : time.leb a a = true.
Proof.
  unfold time.leb, time.compare. now rewrite !Z.compare_refl.
Qed.

(** ** The time-window gate *)

Lemma time_cmp_same_offset (a b : time.t) :
  time.utcoffset a = time.utcoffset b ->
  time.cmp a b = Some (time.compare a b).
Proof.
  unfold time.cmp. intros <-.
  destruct (time.utcoffset a) as [offset|]; [|reflexivity].
  now rewrite Z.eqb_refl.
Qed.

Lemma time_le_same_offset (a b : time.t) (w : world) :
  time.utcoffset a = time.utcoffset b ->
  Tasks.time_le a b w = (Ok (time.leb a b), w).
Proof.
  intros Hab. unfold Tasks.time_le, time.le, time.leb.
  rewrite (time_cmp_same_offset a b Hab).
  now destruct (time.compare a b).
Qed.

Lemma time_lt_same_offset (a b : time.t) (w : world) :
  time.utcoffset a = time.utcoffset b ->
  Tasks.time_lt a b w = (Ok (time.ltb a b), w).
Proof.
  intros Hab. unfold Tasks.time_lt, time.lt, time.ltb.
  rewrite (time_cmp_same_offset a b Hab).
  now destruct (time.compare a b).
Qed.

Lemma time_le_mixed (a b : time.t) (w : world) :
  (time.utcoffset a = None <-> time.utcoffset b <> None) ->
  Tasks.time_le a b w = (Raised TypeError, w).
Proof.
  unfold Tasks.time_le, time.le, time.cmp. intros Hmixed.
  destruct (time.utcoffset a), (time.utcoffset b); try reflexivity;
    exfalso; destruct Hmixed as [H1 H2]; [|now apply H1].
  discriminate H2. discriminate.
Qed.

(** On three times of one offset, all naive for one, [is_now] returns the
    window test on the order of the fields. *)
Lemma is_now_same_offset (start end_ now : time.t) (w : world) :
  time.utcoffset start = time.utcoffset now ->
  time.utcoffset end_ = time.utcoffset now ->
  Tasks.is_now start end_ now w
  = (Ok (if time.leb start end_
         then time.leb start now && time.leb now end_
         else time.leb start now || time.ltb now end_), w).
Proof.
  intros Hs He. unfold Tasks.is_now, mbind, M_bind, mret, M_ret.
  rewrite (time_le_same_offset start end_) by congruence.
  destruct (time.leb start end_);
    rewrite (time_le_same_offset start now) by congruence;
    destruct (time.leb start now); cbn [andb orb]; try reflexivity.
  - now rewrite (time_le_same_offset now end_) by congruence.
  - now rewrite (time_lt_same_offset now end_) by congruence.
Qed.

Lemma time_le_ways (a b : time.t) (w : world) :
  (exists r, Tasks.time_le a b w = (Ok r, w))
  \/ Tasks.time_le a b w = (Raised TypeError, w).
Proof.
  unfold Tasks.time_le.
  destruct (time.le a b) as [r|]; [left; now exists r|now right].
Qed.

Lemma time_lt_ways (a b : time.t) (w : world) :
  (exists r, Tasks.time_lt a b w = (Ok r, w))
  \/ Tasks.time_lt a b w = (Raised TypeError, w).
Proof.
  unfold Tasks.time_lt.
  destruct (time.lt a b) as [r|]; [left; now exists r|now right].
Qed.

(** Against a naive current time, [is_now] raises [TypeError] as soon as a
    bound is aware. *)
Lemma is_now_offset_raises (start end_ now : time.t) (w : world) :
  time.utcoffset now = None ->
  time.utcoffset start <> None \/ time.utcoffset end_ <> None ->
  Tasks.is_now start end_ now w = (Raised TypeError, w).
Proof.
  intros Hnow Haware. unfold Tasks.is_now, mbind, M_bind, mret, M_ret.
  destruct (time.utcoffset start) as [o1|] eqn:Hstart.
  - assert (Hmixed : Tasks.time_le start now w = (Raised TypeError, w)).
    { apply time_le_mixed. rewrite Hstart, Hnow. split; congruence. }
    destruct (time_le_ways start end_ w) as [[ordered ->]| ->];
      [|reflexivity].
    destruct ordered; now rewrite Hmixed.
  - destruct Haware as [H|Hend]; [congruence|].
    rewrite (time_le_mixed start end_); [reflexivity|].
    rewrite Hstart. split; auto.
Qed.

(** [is_now] returns, or raises [TypeError], and leaves the world as it
    was. *)
Lemma is_now_ways (start end_ now : time.t) (w : world) :
  (exists active, Tasks.is_now start end_ now w = (Ok active, w))
  \/ Tasks.is_now start end_ now w = (Raised TypeError, w).
Proof.
  unfold Tasks.is_now, mbind, M_bind, mret, M_ret.
  destruct (time_le_ways start end_ w) as [[ordered ->]| ->]; [|now right].
  destruct ordered.
  - destruct (time_le_ways start now w) as [[[] ->]| ->];
      [exact (time_le_ways now end_ w)|left; now eexists|now right].
  - destruct (time_le_ways start now w) as [[[] ->]| ->];
      [left; now eexists|exact (time_lt_ways now end_ w)|now right].
Qed.

(** With both bounds read, the tick goes by what [is_now] does. *)
Lemma update_seeders_bounds
  (fromisoformat : string -> option time.t) (E : Tasks.env) (w : world)
  (s s' : string) (start end_ : time.t) :
  Tasks.seeding_start_time_utc (Tasks.global_config E) = Some s ->
  fromisoformat s = Some start ->
  Tasks.seeding_end_time_utc (Tasks.global_config E) = Some s' ->
  fromisoformat s' = Some end_ ->
  (forall active,
      Tasks.is_now start end_ (time.naive (Tasks.time_now E)) w
      = (Ok active, w) ->
      Tasks.update_seeders fromisoformat E w
      = if active then Tasks.poll_servers E w
        else Tasks.change_presence E Idle OutsideSeedingWindow w)
  /\ (Tasks.is_now start end_ (time.naive (Tasks.time_now E)) w
      = (Raised TypeError, w) ->
      Tasks.update_seeders fromisoformat E w = Tasks.poll_servers E w).
Proof.
  intros Hs Hstart Hs' Hend.
  unfold Tasks.update_seeders, Tasks.outside_seeding_hours,
    Tasks.time_fromisoformat.
  rewrite Hs, Hstart, Hs', Hend.
  unfold try_except, mbind, M_bind, mret, M_ret.
  split.
  - intros active ->. destruct active; [reflexivity|].
    cbn [negb]. unfold Tasks.change_presence, emit, mret, M_ret.
    destruct (Tasks.ws_connected E); reflexivity.
  - intros ->. reflexivity.
Qed.

(** C7 on the task: with the window set to the texts [22:00+00:00] and
    [23:00+00:00] the bounds read are aware; at 12:00 UTC, outside the
    window, [is_now] does not answer but raises [TypeError] on the comparison
    with the naive current time, the task swallows it, and the tick polls
    the servers and gives the player present a row.  The same window written
    [22:00] and [23:00] closes the gate. *)
Theorem window_with_offset_does_not_gate :
  let start := time.Time 22 0 0 0 (Some (timedelta.of_minutes 0)) in
  let end_ := time.Time 23 0 0 0 (Some (timedelta.of_minutes 0)) in
  let now := time.mk 12 0 0 0 in
  Sample.hh_mm_offset "22:00+00:00" = Some start
  /\ Sample.hh_mm_offset "23:00+00:00" = Some end_
  /\ time.since_midnight now < time.since_midnight start
  /\ Tasks.is_now start end_ (time.naive now) (World [] [])
     = (Raised TypeError, World [] [])
  /\ Tasks.update_seeders Sample.hh_mm_offset
       (Sample.tick (Some "22:00+00:00"%string) (Some "23:00+00:00"%string)
          1000)
       (World [] [])
     = (Ok tt,
        World
          [ {| steam_id_64 := Sample.ann_steam;
               player_name := "Ann";
               discord_id := None;
               seeding_time_balance := 0;
               total_seeding_time := 0;
               last_seed_check := 1000 |} ]
          [GetPlayerList; ChangePresence Online (Seeding 1 40)])
  /\ Tasks.update_seeders Sample.hh_mm_offset
       (Sample.tick (Some "22:00"%string) (Some "23:00"%string) 1000)
       (World [] [])
     = (Ok tt, World [] [ChangePresence Idle OutsideSeedingWindow]).
Proof. repeat split; reflexivity. Qed.




(** ** The player table: lookups *)

Lemma rows_snoc (tbl : list HLL_Player) (row : HLL_Player) :
  rows (tbl ++ [row]) = rows tbl ++ [(length tbl, row)].
Proof.
  unfold rows. rewrite imap_app. simpl. now rewrite Nat.add_0_r.
Qed.

Lemma rows_lookup (tbl : list HLL_Player) (pk : nat) (row : HLL_Player) :
  In (pk, row) (rows tbl) <-> tbl !! pk = Some row.
Proof.
  unfold rows. rewrite <- list_elem_of_In, elem_of_lookup_imap. split.
  - intros (i & x & Heq & Hl). now inversion Heq; subst.
  - intros Hl. now exists pk, row.
Qed.

Lemma filter_rows_nil (p : HLL_Player -> bool) (tbl : list HLL_Player) :
  (forall row, In row tbl -> p row = false) ->
  List.filter (fun r => p (snd r)) (rows tbl) = [].
Proof.
  intros Hp.
  destruct (List.filter _ (rows tbl)) as [|[pk row] l] eqn:Hf; [reflexivity|].
  assert (Hin : In (pk, row) (List.filter (fun r => p (snd r)) (rows tbl)))
    by (rewrite Hf; now left).
  apply filter_In in Hin as [Hin Hrow].
  apply rows_lookup in Hin. simpl in Hrow.
  rewrite Hp in Hrow; [discriminate|].
  apply list_elem_of_In, list_elem_of_lookup. now exists pk.
Qed.

Lemma filter_rows_one (p : HLL_Player -> bool) (tbl : list HLL_Player)
  (pk : nat) (row : HLL_Player) :
  List.filter (fun r => p (snd r)) (rows tbl) = [(pk, row)] ->
  tbl !! pk = Some row /\ p row = true.
Proof.
  intros Hf.
  assert (Hin : In (pk, row) (List.filter (fun r => p (snd r)) (rows tbl)))
    by (rewrite Hf; now left).
  apply filter_In in Hin as [Hin Hrow].
  now apply rows_lookup in Hin.
Qed.

Lemma prefix_refl (s : string) : String.prefix s s = true.
Proof.
  induction s as [|a s IH]; [reflexivity|].
  simpl. now destruct (Ascii.ascii_dec a a).
Qed.

Lemma contains_refl (s : string) : contains s s = true.
Proof.
  destruct s; simpl; [reflexivity|].
  match goal with |- (?b || _) = true => assert (b = true) as -> end;
    [|reflexivity].
  apply (prefix_refl (String _ _)).
Qed.

Lemma insert_snoc (tbl : list HLL_Player) (old new : HLL_Player) :
  <[length tbl := new]> (tbl ++ [old]) = tbl ++ [new].
Proof.
  rewrite insert_app_r_alt by lia. now rewrite Nat.sub_diag.
Qed.

(** ** Accrual *)

(** C4, as the task does it: a player on a seeding server for whom no row
    matches is given a row with a balance and a total of zero, no Discord
    id and the current instant as last check; the increment is first
    credited on the next tick, so that two consecutive ticks leave the
    balance and the total at one increment of 3 minutes. *)
Theorem seed_player_first_sighting
  (E1 E2 : Tasks.env) (url : string) (p : player.t) (w : world) :
  let created :=
    {| steam_id_64 := player.steam_id_64 p;
       player_name := player.name p;
       discord_id := None;
       seeding_time_balance := 0;
       total_seeding_time := 0;
       last_seed_check := Tasks.now E1 |} in
  let credited :=
    {| steam_id_64 := player.steam_id_64 p;
       player_name := player.name p;
       discord_id := None;
       seeding_time_balance := timedelta.of_minutes 3;
       total_seeding_time := timedelta.of_minutes 3;
       last_seed_check := Tasks.now E2 |} in
  (forall row, In row (table w) ->
     contains (player.steam_id_64 p) (steam_id_64 row) = false) ->
  Tasks.table_accepts E1 created = true ->
  Tasks.table_accepts E2 credited = true ->
  Tasks.seed_player E1 url p w
  = (Ok tt, World (table w ++ [created]) (trace w))
  /\ (Tasks.seed_player E1 url p;; Tasks.seed_player E2 url p) w
     = (Ok tt, World (table w ++ [credited]) (trace w)).
Proof.
  intros created credited Hnone Hacc1 Hacc2.
  assert (Hfirst : Tasks.seed_player E1 url p w
                   = (Ok tt, World (table w ++ [created]) (trace w))).
  { unfold Tasks.seed_player, HLL_Player_filter, mbind, M_bind.
    rewrite (filter_rows_nil _ _ Hnone).
    unfold save_new.
    match goal with
    | |- context [Tasks.table_accepts E1 ?r] => change r with created
    end.
    now rewrite Hacc1. }
  split; [exact Hfirst|].
  unfold mbind at 1. unfold M_bind at 1. rewrite Hfirst.
  unfold Tasks.seed_player, HLL_Player_filter, mbind, M_bind.
  cbn [table trace].
  rewrite rows_snoc, List.filter_app, (filter_rows_nil _ _ Hnone).
  cbn [List.filter snd steam_id_64 created app].
  rewrite contains_refl.
  unfold try_except, save. cbn [table trace].
  match goal with
  | |- context [Tasks.table_accepts E2 ?r] => change r with credited
  end.
  rewrite Hacc2, insert_snoc.
  destruct (Tasks.allow_seeder_reward_message _); reflexivity.
Qed.

Lemma seed_player_first_sighting_witness :
  (Tasks.seed_player (Sample.tick None None 1000) "rcon1" Sample.ann_session;;
   Tasks.seed_player (Sample.tick None None 2000) "rcon1" Sample.ann_session)
    (World [] [])
  = (Ok tt,
     World
       [ {| steam_id_64 := Sample.ann_steam;
            player_name := "Ann";
            discord_id := None;
            seeding_time_balance := timedelta.of_minutes 3;
            total_seeding_time := timedelta.of_minutes 3;
            last_seed_check := 2000 |} ]
       []).
Proof.
  apply (seed_player_first_sighting (Sample.tick None None 1000)
           (Sample.tick None None 2000) "rcon1" Sample.ann_session
           (World [] [])).
  - simpl. intros row [].
  - reflexivity.
  - reflexivity.
Defined.

(** C4 as stated fails: on an empty table the first tick gives the player
    present a row whose balance and total are zero, not the increment, and
    after the second tick the balance is 3 minutes, not 6. *)
Lemma first_sighting_credits_nothing :
  let tick1 := Tasks.update_seeders Sample.hh_mm (Sample.tick None None 1000) in
  let tick2 := Tasks.update_seeders Sample.hh_mm (Sample.tick None None 2000) in
  let increment := timedelta.of_minutes Tasks.SEEDING_INCREMENT_TIMER in
  (exists row,
      table (snd (tick1 (World [] []))) = [row]
      /\ seeding_time_balance row <> increment
      /\ total_seeding_time row <> increment)
  /\ (exists row,
         table (snd ((tick1;; tick2) (World [] []))) = [row]
         /\ seeding_time_balance row <> increment + increment).
Proof.
  split; eexists; (split; [reflexivity|]); simpl; repeat split; discriminate.
Qed.

(** Accrual on an existing row: both counters gain the increment, the last
    check becomes the current instant, and the reward message is sent when
    messages are allowed and the hour count read from the [seconds] part of
    the balance has grown. *)
Lemma seed_player_accrues
  (E : Tasks.env) (url : string) (p : player.t) (w : world) (pk : nat)
  (seeder : HLL_Player) :
  let increment := timedelta.of_minutes Tasks.SEEDING_INCREMENT_TIMER in
  let seeder' :=
    {| steam_id_64 := steam_id_64 seeder;
       player_name := player_name seeder;
       discord_id := discord_id seeder;
       seeding_time_balance := seeding_time_balance seeder + increment;
       total_seeding_time := total_seeding_time seeder + increment;
       last_seed_check := Tasks.now E |} in
  let text := Tasks.seeder_reward_message (Tasks.global_config E) in
  let fired :=
    Tasks.allow_seeder_reward_message (Tasks.global_config E)
    && (timedelta.seconds (seeding_time_balance seeder') / 60 / 60
        >? timedelta.seconds (seeding_time_balance seeder) / 60 / 60) in
  List.filter
    (fun r => contains (player.steam_id_64 p) (steam_id_64 (snd r)))
    (rows (table w))
  = [(pk, seeder)] ->
  Tasks.table_accepts E seeder' = true ->
  Tasks.seed_player E url p w
  = (Ok tt,
     World (<[pk := seeder']> (table w))
       (trace w ++
        if fired then
          SendPlayerMessage url (steam_id_64 seeder) text
          :: (if Tasks.message_sent E url (steam_id_64 seeder) text then []
              else [LogError (FailedRewardMessage (steam_id_64 seeder))])
        else [])).
Proof.
  intros increment seeder' text fired Hone Hacc.
  unfold Tasks.seed_player, HLL_Player_filter.
  unfold mbind at 1. unfold M_bind at 1. rewrite Hone.
  fold increment. fold seeder'. fold text.
  unfold try_except, save, emit, mbind, M_bind, mret, M_ret.
  rewrite Hacc. subst fired.
  destruct (Tasks.allow_seeder_reward_message _); cbn [andb];
    [|now rewrite app_nil_r].
  destruct (_ >? _); [|now rewrite app_nil_r].
  cbn [table trace steam_id_64 seeder'].
  destruct (Tasks.message_sent E url _ text); cbn [table trace];
    now rewrite <- ?app_assoc.
Qed.

(** The reward test of the task on a balance below a day: for a balance
    within [0, 24h) the hour count the task reads is the number of whole
    hours of the balance. *)
Lemma hourly_below_a_day (d : timedelta.t) :
  0 <= d < timedelta.of_hours 24 ->
  timedelta.seconds d / 60 / 60 = timedelta.whole_hours d.
Proof.
  unfold timedelta.of_hours, timedelta.seconds, timedelta.whole_hours.
  intros Hd. rewrite Z.mod_small by lia.
  rewrite !Z.div_div by lia. reflexivity.
Qed.

Example no_reward_within_the_hour :
  Tasks.seed_player (Sample.tick None None 1000) "rcon1" Sample.ann_session
    (World [Sample.ann_row (timedelta.of_minutes 54)] [])
  = (Ok tt,
     World
       [ {| steam_id_64 := Sample.ann_steam;
            player_name := "Ann";
            discord_id := Some 42;
            seeding_time_balance := timedelta.of_minutes 57;
            total_seeding_time := timedelta.of_minutes 57;
            last_seed_check := 1000 |} ]
       []).
Proof. reflexivity. Qed.

Example reward_fires_on_the_hour :
  trace (snd (Tasks.seed_player (Sample.tick None None 1000) "rcon1"
                Sample.ann_session
                (World [Sample.ann_row (timedelta.of_minutes 57)] [])))
  = [SendPlayerMessage "rcon1" Sample.ann_steam "Thanks for seeding"]
  /\ trace (snd (Tasks.seed_player (Sample.tick None None 1000) "rcon1"
                   Sample.ann_session
                   (World [Sample.ann_row (timedelta.of_minutes 60)] [])))
     = [].
Proof. split; reflexivity. Qed.

(** C6 on the task: a player whose balance goes from 23 h 57 min to
    24 h 00 min completes the 24th hour, yet the task compares the hour
    counts 0 and 23 read from the [seconds] part and sends no reward
    message. *)
Theorem reward_missed_at_24_hours :
  let before := timedelta.of_minutes (23 * 60 + 57) in
  let after := before + timedelta.of_minutes Tasks.SEEDING_INCREMENT_TIMER in
  timedelta.whole_hours before = 23
  /\ timedelta.whole_hours after = 24
  /\ timedelta.seconds before / 60 / 60 = 23
  /\ timedelta.seconds after / 60 / 60 = 0
  /\ Tasks.update_seeders Sample.hh_mm (Sample.tick None None 1000)
       (World [Sample.ann_row before] [])
     = (Ok tt,
        World
          [ {| steam_id_64 := Sample.ann_steam;
               player_name := "Ann";
               discord_id := Some 42;
               seeding_time_balance := after;
               total_seeding_time := after;
               last_seed_check := 1000 |} ]
          [ GetPlayerList; ChangePresence Online (Seeding 1 40) ]).
Proof. repeat split; reflexivity. Qed.

(** ** The commands: how a run of [claim] unfolds *)

Lemma all_differ_from_first_nil (l : list (option Commands.vip_info)) :
  Commands.all_differ_from_first l = true <-> l = [].
Proof.
  destruct l as [|first l]; [easy|].
  unfold Commands.all_differ_from_first. simpl.
  rewrite bool_decide_eq_false_2 by (intros H; now apply H).
  easy.
Qed.

Lemma all_differ_from_first_last (l : list (option Commands.vip_info)) :
  Commands.all_differ_from_first l = false -> exists vip, last l = Some vip.
Proof.
  intros H. destruct (last l) as [vip|] eqn:Hl; [now exists vip|].
  apply last_None in Hl. apply all_differ_from_first_nil in Hl. congruence.
Qed.

Lemma get_player_by_discord_id_found
  (discord : Z) (w : world) (pk : nat) (player : HLL_Player) :
  Commands.get_player_by_discord_id discord w = (Ok (Some (pk, player)), w) ->
  table w !! pk = Some player /\ discord_id player = Some discord.
Proof.
  unfold Commands.get_player_by_discord_id. intros H.
  injection H as H. apply find_some in H as [Hin Hd].
  apply rows_lookup in Hin. simpl in Hd.
  now apply bool_decide_eq_true in Hd.
Qed.

Lemma claim_not_found (decode : string -> datetime.t) (E : Commands.env)
  (ctx : Commands.author) (hours : Z) (w : world) :
  Commands.get_player_by_discord_id (Commands.id ctx) w = (Ok None, w) ->
  Commands.claim decode E ctx (Some hours) w
  = (Ok tt, World (table w) (trace w ++ [Respond CannotFindId])).
Proof.
  intros Hplayer. unfold Commands.claim.
  unfold mbind at 1. unfold M_bind at 1. now rewrite Hplayer.
Qed.

Lemma claim_not_enough (decode : string -> datetime.t) (E : Commands.env)
  (ctx : Commands.author) (hours : Z) (w : world) (pk : nat)
  (player : HLL_Player) :
  let banked := timedelta.seconds (seeding_time_balance player) / 3600 in
  Commands.get_player_by_discord_id (Commands.id ctx) w
  = (Ok (Some (pk, player)), w) ->
  (hours >? banked) = true ->
  Commands.claim decode E ctx (Some hours) w
  = (Ok tt,
     World (table w) (trace w ++ [Respond (NotEnoughBankedTime hours banked)])).
Proof.
  intros banked Hplayer Hhours. unfold Commands.claim.
  unfold mbind at 1. unfold M_bind at 1. rewrite Hplayer.
  fold banked. now rewrite Hhours.
Qed.

Lemma claim_differs (decode : string -> datetime.t) (E : Commands.env)
  (ctx : Commands.author) (hours : Z) (w : world) (pk : nat)
  (player : HLL_Player) :
  let steam := steam_id_64 player in
  Commands.get_player_by_discord_id (Commands.id ctx) w
  = (Ok (Some (pk, player)), w) ->
  (hours >? timedelta.seconds (seeding_time_balance player) / 3600) = false ->
  Commands.all_differ_from_first (map snd (Commands.vip_dict E steam)) = true ->
  Commands.claim decode E ctx (Some hours) w
  = (Ok tt,
     World (table w) (trace w ++ [GetVip steam; Respond VipStatusDiffers])).
Proof.
  intros steam Hplayer Hhours Hdiff. unfold Commands.claim.
  unfold mbind at 1. unfold M_bind at 1. rewrite Hplayer, Hhours.
  unfold Commands.get_vip, Commands.respond, emit, mbind, M_bind, mret, M_ret.
  cbv beta iota. fold steam. rewrite Hdiff. cbn [table trace].
  now rewrite <- app_assoc.
Qed.

Lemma claim_run (decode : string -> datetime.t) (E : Commands.env)
  (ctx : Commands.author) (hours : Z) (w : world) (pk : nat)
  (player : HLL_Player) (vip : option Commands.vip_info) :
  let steam := steam_id_64 player in
  let name := player_name player in
  let entries := map snd (Commands.vip_dict E steam) in
  let expiration := Commands.claimed_expiration decode E vip hours in
  let w1 := World (table w) (trace w ++ [GetVip steam]) in
  let w2 := World (table w)
              (trace w ++ [GetVip steam;
                           GrantVip name steam (datetime.strftime expiration)]) in
  Commands.get_player_by_discord_id (Commands.id ctx) w
  = (Ok (Some (pk, player)), w) ->
  (hours >? timedelta.seconds (seeding_time_balance player) / 3600) = false ->
  Commands.all_differ_from_first entries = false ->
  last entries = Some vip ->
  Commands.claim decode E ctx (Some hours) w =
  if expiration >=? Commands.far_future then
    (save (Commands.table_accepts E) pk player;;
     Commands.respond
       (ClaimDone NoNeedToConvert (seeding_time_balance player))) w1
  else
    match
      List.find (fun r => negb (snd r))
        (Commands.grant_results E name steam (datetime.strftime expiration))
    with
    | Some (rcon, _) =>
        (Ok tt,
         World (table w)
           (trace w2 ++ [LogError (ProblemAssigningVip rcon);
                         Respond GrantProblem]))
    | None =>
        (save (Commands.table_accepts E) pk (Commands.spend hours player);;
         Commands.respond
           (ClaimDone
              (Added
                 (Commands.seeder_vip_reward_hours (Commands.global_config E)
                  * hours)
                 (datetime.timestamp expiration))
              (seeding_time_balance player - timedelta.of_hours hours))) w2
    end.
Proof.
  intros steam name entries expiration w1 w2 Hplayer Hhours Hsame Hlast.
  unfold Commands.claim.
  unfold mbind at 1. unfold M_bind at 1. rewrite Hplayer.
  rewrite Hhours.
  unfold Commands.get_vip, Commands.grant_vip, Commands.pop, Commands.respond,
    emit, save, mbind, M_bind, mret, M_ret.
  cbv beta iota.
  fold steam entries. rewrite Hsame, Hlast.
  subst expiration w1 w2.
  unfold Commands.claimed_expiration, Commands.expiration_base, Commands.spend.
  cbn [table trace seeding_time_balance].
  fold steam name.
  destruct (Commands.expiration_text vip) as [text|];
    [destruct (decode text <? Commands.now E)|];
    (destruct (_ >=? Commands.far_future);
     [destruct (Commands.table_accepts E player); reflexivity|]).
  all: destruct (find _ _) as [[rcon ok]|]; cbn [table trace];
    [now rewrite <- !app_assoc|];
    destruct (Commands.table_accepts E _); cbn [table trace];
    now rewrite <- ?app_assoc.
Qed.

(** ** The commands: claims *)

(** C3, as the command does it: a claim that passes the balance and the
    consistency checks and whose computed expiration is at or beyond
    2200-01-01 UTC is answered that the VIP does not expire; no grant is
    sent to the servers and the balance is not spent. *)
Theorem claim_far_future_no_grant
  (decode : string -> datetime.t) (E : Commands.env) (ctx : Commands.author)
  (hours : Z) (w : world) (pk : nat) (player : HLL_Player)
  (vip : option Commands.vip_info) :
  let steam := steam_id_64 player in
  let entries := map snd (Commands.vip_dict E steam) in
  Commands.get_player_by_discord_id (Commands.id ctx) w
  = (Ok (Some (pk, player)), w) ->
  (hours >? timedelta.seconds (seeding_time_balance player) / 3600) = false ->
  Commands.all_differ_from_first entries = false ->
  last entries = Some vip ->
  Commands.far_future <= Commands.claimed_expiration decode E vip hours ->
  Commands.table_accepts E player = true ->
  Commands.claim decode E ctx (Some hours) w
  = (Ok tt,
     World (table w)
       (trace w ++
        [ GetVip steam;
          Respond (ClaimDone NoNeedToConvert (seeding_time_balance player)) ])).
Proof.
  intros steam entries Hplayer Hhours Hsame Hlast Hfar Hacc.
  rewrite (claim_run decode E ctx hours w pk player vip
             Hplayer Hhours Hsame Hlast).
  apply Z.geb_le in Hfar. rewrite Hfar.
  unfold save, Commands.respond, emit, mbind, M_bind.
  rewrite Hacc. cbn [table trace].
  apply get_player_by_discord_id_found in Hplayer as [Hrow _].
  rewrite (list_insert_id _ _ _ Hrow).
  now rewrite <- app_assoc.
Qed.

Lemma claim_far_future_no_grant_witness :
  Commands.claim Sample.rcon_times
    (Sample.call (Sample.expires "2199-12-31T12:00:00")
       (Sample.expires "2199-12-31T12:00:00") true true)
    Sample.ann (Some 13)
    (World [Sample.ann_row (timedelta.of_hours 20)] [])
  = (Ok tt,
     World [Sample.ann_row (timedelta.of_hours 20)]
       [ GetVip Sample.ann_steam;
         Respond (ClaimDone NoNeedToConvert (timedelta.of_hours 20)) ]).
Proof.
  apply (claim_far_future_no_grant Sample.rcon_times
           (Sample.call (Sample.expires "2199-12-31T12:00:00")
              (Sample.expires "2199-12-31T12:00:00") true true)
           Sample.ann 13
           (World [Sample.ann_row (timedelta.of_hours 20)] [])
           0%nat (Sample.ann_row (timedelta.of_hours 20))
           (Sample.expires "2199-12-31T12:00:00")).
  - reflexivity.
  - reflexivity.
  - reflexivity.
  - reflexivity.
  - vm_compute. discriminate.
  - reflexivity.
Defined.

(** C3 as stated fails: a claim of 13 hours on a VIP that expires on
    2199-12-31 at noon computes an expiration beyond 2200-01-01 UTC, and no
    grant is sent to any server. *)
Lemma far_future_claim_sends_no_grant :
  let E := Sample.call (Sample.expires "2199-12-31T12:00:00")
             (Sample.expires "2199-12-31T12:00:00") true true in
  let w' := snd (Commands.claim Sample.rcon_times E Sample.ann (Some 13)
                   (World [Sample.ann_row (timedelta.of_hours 20)] [])) in
  Commands.far_future
  <= Commands.claimed_expiration Sample.rcon_times E
       (Sample.expires "2199-12-31T12:00:00") 13
  /\ trace w'
     = [ GetVip Sample.ann_steam;
         Respond (ClaimDone NoNeedToConvert (timedelta.of_hours 20)) ]
  /\ forall name steam expiration,
       ~ In (GrantVip name steam expiration) (trace w').
Proof.
  split; [vm_compute; discriminate|].
  split; [reflexivity|].
  intros name steam expiration [H|[H|[]]]; discriminate.
Qed.

(** C2: in every run of [claim] with an amount, if a grant was sent and some
    server reports failure for it, the table is left as it was and the
    command answers that a server had a problem; and whenever the table
    differs after the run, a grant was sent and every server reported
    success for it. *)
Theorem claim_spends_only_after_grants
  (decode : string -> datetime.t) (E : Commands.env) (ctx : Commands.author)
  (hours : Z) (w : world) (evs : list event) :
  let w' := snd (Commands.claim decode E ctx (Some hours) w) in
  trace w' = trace w ++ evs ->
  (forall name steam expiration rcon,
      In (GrantVip name steam expiration) evs ->
      In (rcon, false) (Commands.grant_results E name steam expiration) ->
      table w' = table w /\ In (Respond GrantProblem) evs)
  /\ (table w' <> table w ->
      exists name steam expiration,
        In (GrantVip name steam expiration) evs
        /\ forall rcon ok,
             In (rcon, ok) (Commands.grant_results E name steam expiration) ->
             ok = true).
Proof.
  intros w' Hevs. subst w'.
  assert (Hp : Commands.get_player_by_discord_id (Commands.id ctx) w
               = (Ok (List.find
                        (fun r => bool_decide
                                    (discord_id (snd r)
                                     = Some (Commands.id ctx)))
                        (rows (table w))), w)) by reflexivity.
  destruct (List.find _ (rows (table w))) as [[pk player]|].
  2: { rewrite (claim_not_found decode E ctx hours w Hp) in *.
       cbn [snd table trace] in *. apply app_inv_head in Hevs. subst evs.
       split; [intros ? ? ? ? [H|[]]; discriminate|intros H; now contradict H]. }
  destruct (hours >? timedelta.seconds (seeding_time_balance player) / 3600)
    eqn:Hh.
  { rewrite (claim_not_enough decode E ctx hours w pk player Hp Hh) in *.
    cbn [snd table trace] in *. apply app_inv_head in Hevs. subst evs.
    split; [intros ? ? ? ? [H|[]]; discriminate|intros H; now contradict H]. }
  destruct (Commands.all_differ_from_first
              (map snd (Commands.vip_dict E (steam_id_64 player)))) eqn:Hd.
  { rewrite (claim_differs decode E ctx hours w pk player Hp Hh Hd) in *.
    cbn [snd table trace] in *. apply app_inv_head in Hevs. subst evs.
    split; [intros ? ? ? ? [H|[H|[]]]; discriminate
           |intros H; now contradict H]. }
  destruct (all_differ_from_first_last _ Hd) as [vip Hlast].
  rewrite (claim_run decode E ctx hours w pk player vip Hp Hh Hd Hlast) in *.
  apply get_player_by_discord_id_found in Hp as [Hrow _].
  destruct (_ >=? Commands.far_future).
  { unfold save, Commands.respond, emit, mbind, M_bind in *.
    destruct (Commands.table_accepts E player);
      cbn [snd table trace] in *; rewrite ?(list_insert_id _ _ _ Hrow);
      rewrite <- ?app_assoc in Hevs; apply app_inv_head in Hevs; subst evs.
    - split; [intros ? ? ? ? [H|[H|[]]]; discriminate
             |intros H; now contradict H].
    - split; [intros ? ? ? ? [H|[]]; discriminate
             |intros H; now contradict H]. }
  destruct (List.find _ (Commands.grant_results E _ _ _))
    as [[rcon' ok']|] eqn:Hfind.
  { cbn [snd table trace] in *.
    rewrite <- ?app_assoc in Hevs; apply app_inv_head in Hevs; subst evs.
    split; [|intros H; now contradict H].
    intros. split; [reflexivity|]. simpl. tauto. }
  assert (Hall : forall rcon ok,
             In (rcon, ok)
               (Commands.grant_results E (player_name player)
                  (steam_id_64 player)
                  (datetime.strftime
                     (Commands.claimed_expiration decode E vip hours))) ->
             ok = true).
  { intros rcon ok Hin. apply (find_none _ _ Hfind) in Hin.
    simpl in Hin. now destruct ok. }
  unfold save, Commands.respond, emit, mbind, M_bind in *.
  destruct (Commands.table_accepts E _);
    cbn [snd table trace] in *;
    rewrite <- ?app_assoc in Hevs; apply app_inv_head in Hevs; subst evs.
  - split.
    + intros name steam expiration rcon [H|[H|[H|[]]]] Hfalse;
        try discriminate.
      injection H as <- <- <-. now apply Hall in Hfalse.
    + intros _. eexists _, _, _. split; [right; left; reflexivity|exact Hall].
  - split; [|intros H; now contradict H].
    intros name steam expiration rcon [H|[H|[]]] Hfalse; try discriminate.
    injection H as <- <- <-. now apply Hall in Hfalse.
Qed.

Lemma claim_spends_only_after_grants_witness :
  let w := World [Sample.ann_row (timedelta.of_hours 3)] [] in
  let w' := snd (Commands.claim Sample.rcon_times
                   (Sample.call None None true false) Sample.ann (Some 2) w) in
  table w' = [Sample.ann_row (timedelta.of_hours 3)]
  /\ In (Respond GrantProblem) (trace w').
Proof.
  intros w w'.
  refine (proj1 (claim_spends_only_after_grants Sample.rcon_times
                   (Sample.call None None true false) Sample.ann 2 w
                   (trace w') eq_refl)
            "Ann"%string Sample.ann_steam
            (datetime.utc 2024 1 1 + timedelta.of_hours 2) "rcon2"%string
            _ _).
  - right; left; reflexivity.
  - right; left; reflexivity.
Defined.



(** C5 on the command: a player with 25 hours banked who claims 2 hours is
    refused for lack of banked time, the command reading 1 banked hour from
    the [seconds] part of the balance; the table is left as it was. *)
Theorem claim_refused_with_25_hours_banked :
  let balance := timedelta.of_hours 25 in
  let w := World [Sample.ann_row balance] [] in
  timedelta.whole_hours balance = 25
  /\ timedelta.seconds balance / 3600 = 1
  /\ Commands.claim Sample.rcon_times (Sample.call None None true true)
       Sample.ann (Some 2) w
     = (Ok tt,
        World [Sample.ann_row balance] [Respond (NotEnoughBankedTime 2 1)]).
Proof. repeat split; reflexivity. Qed.

(** ** The commands: agreement of the servers *)

(** C1 on the commands: with no record on the first server and an expiration
    on the second, [claim] and [vip] do not report that the servers differ:
    [claim] takes the entry of the second server, sends the grant and spends
    the balance, and [vip] answers with the expiration of the second
    server. *)
Theorem differing_vip_entries_not_reported :
  let second := Sample.expires "2024-01-02T00:00:00" in
  let E := Sample.call None second true true in
  let w := World [Sample.ann_row (timedelta.of_hours 3)] [] in
  None <> second
  /\ Commands.all_differ_from_first [None; second] = false
  /\ trace (snd (Commands.claim Sample.rcon_times E Sample.ann (Some 2) w))
     = [ GetVip Sample.ann_steam;
         GrantVip "Ann" Sample.ann_steam
           (datetime.utc 2024 1 2 + timedelta.of_hours 2);
         Respond
           (ClaimDone
              (Added 2
                 (datetime.timestamp
                    (datetime.utc 2024 1 2 + timedelta.of_hours 2)))
              (timedelta.of_hours 1)) ]
  /\ map seeding_time_balance
       (table (snd (Commands.claim Sample.rcon_times E Sample.ann (Some 2) w)))
     = [timedelta.of_hours 1]
  /\ Commands.vip Sample.rcon_times E Sample.ann w
     = (Ok tt,
        World (table w)
          [ GetVip Sample.ann_steam;
            Respond (VipExpires (datetime.timestamp (datetime.utc 2024 1 2))) ]).
Proof. repeat split; try reflexivity. discriminate. Qed.

(** ** The commands: registration *)

(** C10: when the lookup of [register] finds exactly one row for the Steam
    id, the table after the command differs from the table before at most
    in that row, whose [steam_id_64], [player_name], [seeding_time_balance],
    [total_seeding_time] and [last_seed_check] are as before; its
    [discord_id] is as before, or was unset and is now the id of the
    caller. *)
Theorem register_keeps_fields
  (E : Commands.env) (ctx : Commands.author) (steam64 : string) (w : world)
  (pk : nat) (player : HLL_Player) :
  List.filter (fun r => String.eqb (steam_id_64 (snd r)) steam64)
    (rows (table w))
  = [(pk, player)] ->
  let w' := snd (Commands.register E ctx steam64 w) in
  exists player',
    table w !! pk = Some player
    /\ table w' = <[pk := player']> (table w)
    /\ steam_id_64 player' = steam_id_64 player
    /\ player_name player' = player_name player
    /\ seeding_time_balance player' = seeding_time_balance player
    /\ total_seeding_time player' = total_seeding_time player
    /\ last_seed_check player' = last_seed_check player
    /\ (discord_id player' = discord_id player
        \/ (discord_id player = None
            /\ discord_id player' = Some (Commands.id ctx))).
Proof.
  intros Hone w'. subst w'.
  destruct (filter_rows_one
              (fun row => String.eqb (steam_id_64 row) steam64) _ _ _ Hone)
    as [Hrow _].
  unfold Commands.register, HLL_Player_filter.
  unfold mbind at 1. unfold M_bind at 1. rewrite Hone.
  destruct (discord_id player) as [owner|] eqn:Hd.
  - exists player. rewrite (list_insert_id _ _ _ Hrow), Hd.
    destruct (owner =? Commands.id ctx); simpl; tauto.
  - unfold save, Commands.respond, emit, mbind, M_bind.
    destruct (Commands.table_accepts E _).
    + eexists. split; [exact Hrow|]. split; [reflexivity|].
      simpl. tauto.
    + exists player. rewrite (list_insert_id _ _ _ Hrow), Hd.
      simpl. tauto.
Qed.

Lemma register_keeps_fields_witness :
  let row :=
    {| steam_id_64 := Sample.ann_steam;
       player_name := "Ann in game";
       discord_id := None;
       seeding_time_balance := timedelta.of_minutes 9;
       total_seeding_time := timedelta.of_minutes 9;
       last_seed_check := 1000 |} in
  let w' := snd (Commands.register (Sample.call None None true true)
                   Sample.ann Sample.ann_steam (World [row] [])) in
  exists player',
    table w' = [player']
    /\ player_name player' = "Ann in game"%string
    /\ seeding_time_balance player' = timedelta.of_minutes 9
    /\ discord_id player' = Some 42.
Proof.
  intros row w'.
  destruct (register_keeps_fields (Sample.call None None true true)
              Sample.ann Sample.ann_steam (World [row] []) 0%nat row eq_refl)
    as (player' & _ & Htable & _ & Hname & Hbal & _ & _ & Hdiscord).
  exists player'. split; [exact Htable|]. split; [exact Hname|].
  split; [exact Hbal|].
  destruct Hdiscord as [Hsame|[_ Hset]]; [|exact Hset].
  change (table w') with
    [ {| steam_id_64 := Sample.ann_steam;
         player_name := "Ann in game";
         discord_id := Some 42;
         seeding_time_balance := timedelta.of_minutes 9;
         total_seeding_time := timedelta.of_minutes 9;
         last_seed_check := 1000 |} ] in Htable.
  simpl in Htable. injection Htable as <-. reflexivity.
Defined.

(** ** Loops and tables: what a tick can do to the table *)

Lemma for_each_invariant {A} (I : world -> Prop) (body : A -> M unit)
  (l : list A) (w : world) :
  (forall x w0, I w0 -> I (snd (body x w0))) ->
  I w -> I (snd (for_each l body w)).
Proof.
  intros Hbody. revert w.
  induction l as [|x l IH]; intros w Hw; [exact Hw|].
  simpl. unfold mbind, M_bind.
  pose proof (Hbody x w Hw) as Hx.
  destruct (body x w) as [[[]|e] w1]; simpl in Hx; [now apply IH|exact Hx].
Qed.

Lemma for_each_at_most_save_error {A} (body : A -> M unit) (l : list A)
  (w : world) :
  (forall x w0, at_most_save_error (fst (body x w0))) ->
  at_most_save_error (fst (for_each l body w)).
Proof.
  intros Hbody. revert w.
  induction l as [|x l IH]; intros w; [exact I|].
  simpl. unfold mbind, M_bind.
  pose proof (Hbody x w) as Hx.
  destruct (body x w) as [[[]|e] w1]; simpl in Hx; [apply IH|exact Hx].
Qed.

Lemma change_presence_run (E : Tasks.env) (status : presence_status)
  (text : presence_text) (w : world) :
  Tasks.change_presence E status text w
  = (Ok tt,
     World (table w)
       (trace w ++
        if Tasks.ws_connected E then [ChangePresence status text] else [])).
Proof.
  unfold Tasks.change_presence, emit.
  destruct (Tasks.ws_connected E); [reflexivity|].
  rewrite app_nil_r. now destruct w.
Qed.

(** The three things [seed_player] can do to the table. *)
Lemma seed_player_table (E : Tasks.env) (url : string) (p : player.t)
  (w : world) :
  let tbl' := table (snd (Tasks.seed_player E url p w)) in
  tbl' = table w
  \/ tbl' = table w ++ [first_row E p]
  \/ exists pk seeder,
       table w !! pk = Some seeder
       /\ tbl' = <[pk := credit E seeder]> (table w).
Proof.
  cbv zeta.
  destruct (Tasks.seed_player E url p w) as [r w'] eqn:Hrun. cbn [snd].
  revert Hrun. unfold Tasks.seed_player, HLL_Player_filter.
  unfold mbind at 1. unfold M_bind at 1.
  destruct (List.filter _ (rows (table w))) as [|[pk seeder] [|]] eqn:Hf.
  - unfold save_new.
    destruct (Tasks.table_accepts E _); intros [= <- <-];
      [right; left; reflexivity|left; reflexivity].
  - apply filter_rows_one
      with (p := fun row => contains (player.steam_id_64 p) (steam_id_64 row))
      in Hf as [Hrow _].
    unfold try_except, save, emit, mbind, M_bind, mret, M_ret.
    destruct (Tasks.table_accepts E _); cbn [table trace];
      (destruct (Tasks.allow_seeder_reward_message _);
       [destruct (_ >? _); [destruct (Tasks.message_sent E _ _ _)|]|]);
      intros [= <- <-]; cbn [table];
      first [ now left | right; right; now exists pk, seeder ].
  - intros [= <- <-]. now left.
Qed.

Lemma seed_player_at_most_save_error (E : Tasks.env) (url : string)
  (p : player.t) (w : world) :
  at_most_save_error (fst (Tasks.seed_player E url p w)).
Proof.
  unfold Tasks.seed_player, HLL_Player_filter.
  unfold mbind at 1. unfold M_bind at 1.
  destruct (List.filter _ (rows (table w))) as [|[pk seeder] [|]].
  - unfold save_new. destruct (Tasks.table_accepts E _); simpl; auto.
  - unfold try_except, save, emit, mbind, M_bind, mret, M_ret.
    destruct (Tasks.table_accepts E _);
      (destruct (Tasks.allow_seeder_reward_message _); [|exact I]);
      (destruct (_ >? _); [|exact I]);
      destruct (Tasks.message_sent E _ _ _); exact I.
  - exact I.
Qed.

(** The gate leaves three ways through [update_seeders]. *)
Lemma update_seeders_ways
  (fromisoformat : string -> option time.t) (E : Tasks.env) (w : world) :
  Tasks.update_seeders fromisoformat E w = Tasks.poll_servers E w
  \/ Tasks.update_seeders fromisoformat E w
     = (emit (LogError CannotSetSeedingHours);; Tasks.poll_servers E) w
  \/ Tasks.update_seeders fromisoformat E w
     = Tasks.change_presence E Idle OutsideSeedingWindow w.
Proof.
  destruct (Tasks.seeding_start_time_utc (Tasks.global_config E)) as [s|]
    eqn:Hs.
  2: { left. unfold Tasks.update_seeders, Tasks.outside_seeding_hours,
         Tasks.time_fromisoformat. now rewrite Hs. }
  destruct (fromisoformat s) as [start|] eqn:Hstart.
  2: { right; left. unfold Tasks.update_seeders, Tasks.outside_seeding_hours,
         Tasks.time_fromisoformat. now rewrite Hs, Hstart. }
  destruct (Tasks.seeding_end_time_utc (Tasks.global_config E)) as [s'|]
    eqn:Hs'.
  2: { left. unfold Tasks.update_seeders, Tasks.outside_seeding_hours,
         Tasks.time_fromisoformat. now rewrite Hs, Hstart, Hs'. }
  destruct (fromisoformat s') as [end_|] eqn:Hend.
  2: { right; left. unfold Tasks.update_seeders, Tasks.outside_seeding_hours,
         Tasks.time_fromisoformat. now rewrite Hs, Hstart, Hs', Hend. }
  destruct (update_seeders_bounds fromisoformat E w s s' start end_
              Hs Hstart Hs' Hend) as [Hreturns Hraises].
  destruct (is_now_ways start end_ (time.naive (Tasks.time_now E)) w)
    as [[active His]|His].
  - rewrite (Hreturns active His). destruct active; auto.
  - left. exact (Hraises His).
Qed.

(** A relation between tables that is reflexive, transitive and holds
    across the insert of a first row and across the accrual to a row holds
    across a whole tick. *)
Lemma update_seeders_table
  (R : list HLL_Player -> list HLL_Player -> Prop)
  (fromisoformat : string -> option time.t) (E : Tasks.env) (w : world) :
  (forall t, R t t) ->
  (forall a b c, R a b -> R b c -> R a c) ->
  (forall t p, R t (t ++ [first_row E p])) ->
  (forall t pk seeder,
      t !! pk = Some seeder -> R t (<[pk := credit E seeder]> t)) ->
  R (table w) (table (snd (Tasks.update_seeders fromisoformat E w))).
Proof.
  intros Hrefl Htrans Hnew Hcredit.
  assert (Hplayer : forall url p w0,
             R (table w0) (table (snd (Tasks.seed_player E url p w0)))).
  { intros url p w0.
    destruct (seed_player_table E url p w0) as [->|[->|(pk & s & Hrow & ->)]];
      auto. }
  assert (Hserver : forall server w0,
             R (table w0) (table (snd (Tasks.seed_server E server w0)))).
  { intros [url players] w0. unfold Tasks.seed_server. cbn [fst snd].
    destruct (_ <? _); [|rewrite change_presence_run; apply Hrefl].
    unfold mbind, M_bind.
    pose proof (for_each_invariant (fun w1 => R (table w0) (table w1))
                  (Tasks.seed_player E url) players w0) as Hloop.
    cbv beta in Hloop.
    destruct (for_each players _ w0) as [[[]|e] w1];
      [rewrite change_presence_run|]; cbn [snd table] in *;
      apply Hloop; eauto. }
  assert (Hpoll : forall w0,
             R (table w0) (table (snd (Tasks.poll_servers E w0)))).
  { intros w0. unfold Tasks.poll_servers, emit, mbind, M_bind.
    apply (for_each_invariant (fun w1 => R (table w0) (table w1))
             (Tasks.seed_server E) (Tasks.player_lists E)
             (World (table w0) (trace w0 ++ [GetPlayerList])));
      [|apply Hrefl].
    intros server w1 Hw1. eapply Htrans; [exact Hw1|apply Hserver]. }
  destruct (update_seeders_ways fromisoformat E w) as [->|[->| ->]].
  - apply Hpoll.
  - unfold emit, mbind, M_bind.
    apply (Hpoll (World (table w) (trace w ++ [LogError CannotSetSeedingHours]))).
  - rewrite change_presence_run. apply Hrefl.
Qed.

Lemma row_grows_refl (row : HLL_Player) : row_grows row row.
Proof. unfold row_grows. repeat split; lia. Qed.

Lemma row_grows_trans (a b c : HLL_Player) :
  row_grows a b -> row_grows b c -> row_grows a c.
Proof.
  unfold row_grows.
  intros (-> & -> & -> & ? & ?) (-> & -> & -> & ? & ?).
  repeat split; lia.
Qed.

Lemma row_grows_credit (E : Tasks.env) (seeder : HLL_Player) :
  row_grows seeder (credit E seeder).
Proof.
  unfold row_grows, credit, Tasks.SEEDING_INCREMENT_TIMER, timedelta.of_minutes.
  simpl. repeat split; lia.
Qed.

Lemma table_grows_refl (t : list HLL_Player) : table_grows t t.
Proof. intros pk row Hrow. exists row. split; [exact Hrow|apply row_grows_refl]. Qed.

Lemma table_grows_trans (a b c : list HLL_Player) :
  table_grows a b -> table_grows b c -> table_grows a c.
Proof.
  intros Hab Hbc pk row Hrow.
  destruct (Hab pk row Hrow) as (row' & Hrow' & Hg).
  destruct (Hbc pk row' Hrow') as (row'' & Hrow'' & Hg').
  exists row''. split; [exact Hrow''|]. eapply row_grows_trans; eauto.
Qed.

Lemma table_grows_snoc (t : list HLL_Player) (row : HLL_Player) :
  table_grows t (t ++ [row]).
Proof.
  intros pk old Hold. exists old. split; [|apply row_grows_refl].
  now apply lookup_app_l_Some.
Qed.

Lemma table_grows_credit (E : Tasks.env) (t : list HLL_Player) (pk : nat)
  (seeder : HLL_Player) :
  t !! pk = Some seeder -> table_grows t (<[pk := credit E seeder]> t).
Proof.
  intros Hrow pk' old Hold.
  destruct (decide (pk = pk')) as [<-|Hne].
  - exists (credit E seeder). split.
    + apply list_lookup_insert_eq. now apply lookup_lt_Some in Hrow.
    + rewrite Hrow in Hold. injection Hold as <-. apply row_grows_credit.
  - exists old. split; [|apply row_grows_refl].
    now rewrite list_lookup_insert_ne.
Qed.

(** ** The tick: what it keeps *)

(** A tick of [update_seeders], however it ends, deletes no row and moves
    none: every row is still under its key with the same Steam id, name and
    Discord id, and its balance and its total have gained the same amount of
    time, none of it negative. *)
Theorem tick_rows_only_grow
  (fromisoformat : string -> option time.t) (E : Tasks.env) (w : world) :
  table_grows (table w)
    (table (snd (Tasks.update_seeders fromisoformat E w))).
Proof.
  apply update_seeders_table.
  - apply table_grows_refl.
  - apply table_grows_trans.
  - intros t p. apply table_grows_snoc.
  - intros t pk seeder. apply table_grows_credit.
Qed.

(** A tick of [update_seeders] on a table without negative balances and
    totals ends in a table without negative balances and totals. *)
Theorem tick_keeps_balances_nonneg
  (fromisoformat : string -> option time.t) (E : Tasks.env) (w : world) :
  balances_nonneg (table w) ->
  balances_nonneg (table (snd (Tasks.update_seeders fromisoformat E w))).
Proof.
  apply (update_seeders_table
           (fun a b => balances_nonneg a -> balances_nonneg b)).
  - auto.
  - auto.
  - intros t p Ht. apply Forall_app. split; [exact Ht|].
    constructor; [|constructor]. simpl. unfold timedelta.of_minutes. lia.
  - intros t pk seeder Hrow Ht. apply Forall_insert; [exact Ht|].
    pose proof (proj1 (Forall_lookup _ _) Ht pk seeder Hrow) as [Hb Htot].
    unfold credit, Tasks.SEEDING_INCREMENT_TIMER, timedelta.of_minutes.
    simpl. lia.
Qed.

Lemma tick_keeps_balances_nonneg_witness :
  balances_nonneg
    (table (snd (Tasks.update_seeders Sample.hh_mm (Sample.tick None None 1000)
                   (World [Sample.ann_row (timedelta.of_minutes 57)] [])))).
Proof.
  apply (tick_keeps_balances_nonneg Sample.hh_mm (Sample.tick None None 1000)
           (World [Sample.ann_row (timedelta.of_minutes 57)] [])).
  constructor; [|constructor]. simpl. unfold timedelta.of_minutes. lia.
Defined.

(** A tick of [update_seeders] returns or raises [SaveError]: the
    [ValueError] and the [TypeError] of the window bounds never leave it. *)
Theorem tick_raises_at_most_save_error
  (fromisoformat : string -> option time.t) (E : Tasks.env) (w : world) :
  at_most_save_error (fst (Tasks.update_seeders fromisoformat E w)).
Proof.
  assert (Hserver : forall server w0,
             at_most_save_error (fst (Tasks.seed_server E server w0))).
  { intros [url players] w0. unfold Tasks.seed_server. cbn [fst snd].
    destruct (_ <? _); [|now rewrite change_presence_run].
    unfold mbind, M_bind.
    pose proof (for_each_at_most_save_error (Tasks.seed_player E url) players
                  w0 (seed_player_at_most_save_error E url)) as Hloop.
    destruct (for_each players _ w0) as [[[]|e] w1];
      [now rewrite change_presence_run|exact Hloop]. }
  assert (Hpoll : forall w0,
             at_most_save_error (fst (Tasks.poll_servers E w0))).
  { intros w0. unfold Tasks.poll_servers, emit, mbind, M_bind.
    now apply for_each_at_most_save_error. }
  destruct (update_seeders_ways fromisoformat E w) as [->|[->| ->]].
  - apply Hpoll.
  - unfold emit, mbind, M_bind. apply Hpoll.
  - now rewrite change_presence_run.
Qed.

(** ** The tick: servers at or above the threshold *)

Lemma full_servers_loop (E : Tasks.env) (l : list (string * list player.t))
  (w : world) :
  Forall
    (fun server =>
       Tasks.seeding_threshold (Tasks.global_config E)
       <= Z.of_nat (length (snd server)))
    l ->
  for_each l (Tasks.seed_server E) w
  = (Ok tt,
     World (table w)
       (trace w ++
        if Tasks.ws_connected E
        then repeat (ChangePresence Idle SeedingDone) (length l)
        else [])).
Proof.
  intros Hfull. revert w.
  induction Hfull as [|server l Hserver _ IH]; intros w.
  - simpl. destruct w. destruct (Tasks.ws_connected E);
      now rewrite app_nil_r.
  - cbn [for_each]. unfold mbind at 1. unfold M_bind at 1.
    unfold Tasks.seed_server at 1.
    apply Z.ltb_ge in Hserver. rewrite Hserver.
    rewrite change_presence_run, IH. cbn [table trace].
    destruct (Tasks.ws_connected E); cbn [length repeat];
      now rewrite <- app_assoc.
Qed.

(** A tick that finds every server at or above the seeding threshold returns
    with the table as it was and has sent no message to any player. *)
Theorem full_servers_accrue_nothing
  (fromisoformat : string -> option time.t) (E : Tasks.env) (w : world) :
  Forall
    (fun server =>
       Tasks.seeding_threshold (Tasks.global_config E)
       <= Z.of_nat (length (snd server)))
    (Tasks.player_lists E) ->
  exists evs,
    Tasks.update_seeders fromisoformat E w
    = (Ok tt, World (table w) (trace w ++ evs))
    /\ forall rcon steam message,
         ~ In (SendPlayerMessage rcon steam message) evs.
Proof.
  intros Hfull.
  assert (Hquiet : forall n rcon steam message,
             ~ In (SendPlayerMessage rcon steam message)
                 (if Tasks.ws_connected E
                  then repeat (ChangePresence Idle SeedingDone) n
                  else [])).
  { intros n rcon steam message Hin.
    destruct (Tasks.ws_connected E); [|exact Hin].
    apply repeat_spec in Hin. discriminate. }
  destruct (update_seeders_ways fromisoformat E w) as [->|[->| ->]].
  - unfold Tasks.poll_servers, emit, mbind, M_bind.
    rewrite (full_servers_loop E _ _ Hfull). cbn [table trace].
    rewrite <- app_assoc. eexists. split; [reflexivity|].
    intros rcon steam message [Hin|Hin]; [discriminate|].
    now apply Hquiet in Hin.
  - unfold Tasks.poll_servers, emit, mbind, M_bind.
    rewrite (full_servers_loop E _ _ Hfull). cbn [table trace].
    rewrite <- !app_assoc. eexists. split; [reflexivity|].
    intros rcon steam message [Hin|[Hin|Hin]]; try discriminate.
    now apply Hquiet in Hin.
  - rewrite change_presence_run. eexists. split; [reflexivity|].
    intros rcon steam message Hin.
    destruct (Tasks.ws_connected E); [|exact Hin].
    destruct Hin as [Hin|[]]. discriminate.
Qed.

Lemma full_servers_accrue_nothing_witness :
  let E :=
    {| Tasks.global_config :=
         {| Tasks.seeding_start_time_utc := None;
            Tasks.seeding_end_time_utc := None;
            Tasks.seeding_threshold := 1;
            Tasks.allow_seeder_reward_message := true;
            Tasks.seeder_reward_message := "Thanks for seeding" |};
       Tasks.time_now := time.mk 12 0 0 0;
       Tasks.now := 1000;
       Tasks.ws_connected := true;
       Tasks.player_lists := [("rcon1"%string, [Sample.ann_session])];
       Tasks.message_sent := fun _ _ _ => true;
       Tasks.table_accepts := fun _ => true |} in
  exists evs,
    Tasks.update_seeders Sample.hh_mm E
      (World [Sample.ann_row (timedelta.of_minutes 57)] [])
    = (Ok tt, World [Sample.ann_row (timedelta.of_minutes 57)] ([] ++ evs))
    /\ forall rcon steam message,
         ~ In (SendPlayerMessage rcon steam message) evs.
Proof.
  intros E.
  apply (full_servers_accrue_nothing Sample.hh_mm E
           (World [Sample.ann_row (timedelta.of_minutes 57)] [])).
  constructor; [|constructor]. simpl. lia.
Defined.

(** ** Accrual: rewards and refused writes *)

(** Accrual on the one row that matches a player, with messages allowed and
    the balance before and after within [0, 24h): the reward message is sent
    exactly when the number of whole hours of the balance has grown, and then
    once. *)
Theorem reward_on_each_completed_hour
  (E : Tasks.env) (url : string) (p : player.t) (w : world) (pk : nat)
  (seeder : HLL_Player) :
  let before := seeding_time_balance seeder in
  let after := before + timedelta.of_minutes Tasks.SEEDING_INCREMENT_TIMER in
  let text := Tasks.seeder_reward_message (Tasks.global_config E) in
  List.filter
    (fun r => contains (player.steam_id_64 p) (steam_id_64 (snd r)))
    (rows (table w))
  = [(pk, seeder)] ->
  Tasks.table_accepts E (credit E seeder) = true ->
  Tasks.allow_seeder_reward_message (Tasks.global_config E) = true ->
  0 <= before ->
  after < timedelta.of_hours 24 ->
  trace (snd (Tasks.seed_player E url p w))
  = trace w ++
    if timedelta.whole_hours after >? timedelta.whole_hours before then
      SendPlayerMessage url (steam_id_64 seeder) text
      :: (if Tasks.message_sent E url (steam_id_64 seeder) text then []
          else [LogError (FailedRewardMessage (steam_id_64 seeder))])
    else [].
Proof.
  intros before after text Hone Hacc Hallow Hlow Hhigh.
  pose proof (seed_player_accrues E url p w pk seeder Hone Hacc) as Hrun.
  cbv zeta in Hrun. rewrite Hrun, Hallow. cbn [snd trace andb seeding_time_balance].
  fold before. fold after. fold text.
  assert (Hinc : 0 < timedelta.of_minutes Tasks.SEEDING_INCREMENT_TIMER)
    by reflexivity.
  rewrite !hourly_below_a_day by (subst after; lia).
  reflexivity.
Qed.

Lemma reward_on_each_completed_hour_witness :
  trace (snd (Tasks.seed_player (Sample.tick None None 1000) "rcon1"
                Sample.ann_session
                (World [Sample.ann_row (timedelta.of_minutes 117)] [])))
  = [SendPlayerMessage "rcon1" Sample.ann_steam "Thanks for seeding"].
Proof.
  apply (reward_on_each_completed_hour (Sample.tick None None 1000) "rcon1"
           Sample.ann_session
           (World [Sample.ann_row (timedelta.of_minutes 117)] [])
           0%nat (Sample.ann_row (timedelta.of_minutes 117))).
  - reflexivity.
  - reflexivity.
  - reflexivity.
  - vm_compute. discriminate.
  - reflexivity.
Defined.

(** When the table refuses the write of an accrual, [seed_player] logs the
    failure and returns: the table is as it was, so the increment is lost,
    and the reward message is still decided on the balance that was not
    saved. *)
Theorem refused_accrual_is_logged
  (E : Tasks.env) (url : string) (p : player.t) (w : world) (pk : nat)
  (seeder : HLL_Player) :
  let text := Tasks.seeder_reward_message (Tasks.global_config E) in
  let fired :=
    Tasks.allow_seeder_reward_message (Tasks.global_config E)
    && (timedelta.seconds (seeding_time_balance (credit E seeder)) / 60 / 60
        >? timedelta.seconds (seeding_time_balance seeder) / 60 / 60) in
  List.filter
    (fun r => contains (player.steam_id_64 p) (steam_id_64 (snd r)))
    (rows (table w))
  = [(pk, seeder)] ->
  Tasks.table_accepts E (credit E seeder) = false ->
  Tasks.seed_player E url p w
  = (Ok tt,
     World (table w)
       (trace w ++
        LogError (FailedUpdatingRecord (player_name seeder))
        :: if fired then
             SendPlayerMessage url (steam_id_64 seeder) text
             :: (if Tasks.message_sent E url (steam_id_64 seeder) text then []
                 else [LogError (FailedRewardMessage (steam_id_64 seeder))])
           else [])).
Proof.
  intros text fired Hone Hacc.
  unfold Tasks.seed_player, HLL_Player_filter.
  unfold mbind at 1. unfold M_bind at 1. rewrite Hone.
  fold (credit E seeder). fold text.
  unfold try_except, save, emit, mbind, M_bind, mret, M_ret.
  rewrite Hacc. subst fired.
  destruct (Tasks.allow_seeder_reward_message _); cbn [andb];
    [|reflexivity].
  destruct (_ >? _); [|reflexivity].
  cbn [table trace steam_id_64 player_name credit].
  destruct (Tasks.message_sent E url _ text); cbn [table trace];
    now rewrite <- ?app_assoc.
Qed.

Lemma refused_accrual_is_logged_witness :
  let E :=
    {| Tasks.global_config := Tasks.global_config (Sample.tick None None 0);
       Tasks.time_now := time.mk 12 0 0 0;
       Tasks.now := 1000;
       Tasks.ws_connected := true;
       Tasks.player_lists := [];
       Tasks.message_sent := fun _ _ _ => true;
       Tasks.table_accepts := fun _ => false |} in
  Tasks.seed_player E "rcon1" Sample.ann_session
    (World [Sample.ann_row (timedelta.of_minutes 57)] [])
  = (Ok tt,
     World [Sample.ann_row (timedelta.of_minutes 57)]
       [ LogError (FailedUpdatingRecord "Ann");
         SendPlayerMessage "rcon1" Sample.ann_steam "Thanks for seeding" ]).
Proof.
  intros E.
  apply (refused_accrual_is_logged E "rcon1" Sample.ann_session
           (World [Sample.ann_row (timedelta.of_minutes 57)] [])
           0%nat (Sample.ann_row (timedelta.of_minutes 57)));
    reflexivity.
Defined.

(** When the table refuses the row of a player seen for the first time, the
    exception leaves the tick: with no window configured, a tick whose first
    server is seeding and whose first player has no row raises [SaveError]
    right after the poll, and no other player or server is looked at. *)
Theorem refused_first_row_aborts_tick
  (fromisoformat : string -> option time.t) (E : Tasks.env) (w : world)
  (url : string) (p : player.t) (rest : list player.t)
  (others : list (string * list player.t)) :
  Tasks.seeding_start_time_utc (Tasks.global_config E) = None ->
  Tasks.player_lists E = (url, p :: rest) :: others ->
  Z.of_nat (length (p :: rest))
  < Tasks.seeding_threshold (Tasks.global_config E) ->
  (forall row, In row (table w) ->
     contains (player.steam_id_64 p) (steam_id_64 row) = false) ->
  Tasks.table_accepts E (first_row E p) = false ->
  Tasks.update_seeders fromisoformat E w
  = (Raised SaveError, World (table w) (trace w ++ [GetPlayerList])).
Proof.
  intros Hunset Hlists Hseeding Hnone Hacc.
  assert (Hplayer : forall w0, table w0 = table w ->
             Tasks.seed_player E url p w0 = (Raised SaveError, w0)).
  { intros w0 Hw0.
    unfold Tasks.seed_player, HLL_Player_filter.
    unfold mbind at 1. unfold M_bind at 1.
    rewrite Hw0, (filter_rows_nil _ _ Hnone).
    unfold save_new. fold (first_row E p). now rewrite Hacc. }
  assert (Hserver : forall w0, table w0 = table w ->
             Tasks.seed_server E (url, p :: rest) w0 = (Raised SaveError, w0)).
  { intros w0 Hw0. unfold Tasks.seed_server. cbn [fst snd].
    apply Z.ltb_lt in Hseeding. rewrite Hseeding.
    cbn [for_each]. unfold mbind, M_bind. now rewrite (Hplayer w0 Hw0). }
  assert (Hgate : Tasks.update_seeders fromisoformat E w
                  = Tasks.poll_servers E w).
  { unfold Tasks.update_seeders, Tasks.outside_seeding_hours,
      Tasks.time_fromisoformat.
    now rewrite Hunset. }
  rewrite Hgate. unfold Tasks.poll_servers, emit.
  unfold mbind at 1. unfold M_bind at 1.
  rewrite Hlists. cbn [for_each]. unfold mbind, M_bind.
  now rewrite Hserver.
Qed.

Lemma refused_first_row_aborts_tick_witness :
  let E :=
    {| Tasks.global_config := Tasks.global_config (Sample.tick None None 0);
       Tasks.time_now := time.mk 12 0 0 0;
       Tasks.now := 1000;
       Tasks.ws_connected := true;
       Tasks.player_lists :=
         [ ("rcon1"%string, [Sample.ann_session; player.mk "Bob" "7"]);
           ("rcon2"%string, [player.mk "Cid" "8"]) ];
       Tasks.message_sent := fun _ _ _ => true;
       Tasks.table_accepts := fun _ => false |} in
  Tasks.update_seeders Sample.hh_mm E (World [] [])
  = (Raised SaveError, World [] [GetPlayerList]).
Proof.
  intros E.
  apply (refused_first_row_aborts_tick Sample.hh_mm E (World [] []) "rcon1"
           Sample.ann_session [player.mk "Bob" "7"]
           [("rcon2"%string, [player.mk "Cid" "8"])]).
  - reflexivity.
  - reflexivity.
  - simpl. lia.
  - intros row [].
  - reflexivity.
Defined.

(** ** Accrual after accrual *)

(** Replacing the one row a lookup finds by a row the lookup also finds
    leaves the lookup with that one row. *)
Lemma filter_rows_one_insert (p : HLL_Player -> bool)
  (tbl : list HLL_Player) (pk : nat) (row row' : HLL_Player) :
  List.filter (fun r => p (snd r)) (rows tbl) = [(pk, row)] ->
  p row' = true ->
  List.filter (fun r => p (snd r)) (rows (<[pk := row']> tbl)) = [(pk, row')].
Proof.
  intros Hf Hp'.
  destruct (filter_rows_one p _ _ _ Hf) as [Hrow Hp].
  pose proof (lookup_lt_Some _ _ _ Hrow) as Hlen.
  pose proof (take_drop_middle _ _ _ Hrow) as Hsplit.
  assert (Hl1 : length (take pk tbl) = pk) by (rewrite length_take; lia).
  revert Hf Hsplit Hl1.
  generalize (take pk tbl) (drop (S pk) tbl). intros l1 l2 Hf <- <-.
  rewrite insert_app_r_alt, Nat.sub_diag by lia. cbn [insert list_insert].
  revert Hf. unfold rows.
  rewrite !imap_app, !imap_cons, !List.filter_app. cbn [List.filter snd].
  rewrite Hp, Hp'. intros Hf.
  apply elt_eq_unit in Hf as (_ & -> & ->). now rewrite Nat.add_0_r.
Qed.

(** Accrual after accrual to the one row that matches a player, each write
    taken by the table: after [n] runs of [seed_player] the balance and the
    total of the row have both gained [n] increments of 3 minutes, and its
    Steam id, name and Discord id are as before. *)
Theorem accruals_add_up
  (Es : list Tasks.env) (url : string) (p : player.t) (w : world) (pk : nat)
  (seeder : HLL_Player) :
  List.filter
    (fun r => contains (player.steam_id_64 p) (steam_id_64 (snd r)))
    (rows (table w))
  = [(pk, seeder)] ->
  (forall E row, In E Es -> Tasks.table_accepts E row = true) ->
  let run := for_each Es (fun E => Tasks.seed_player E url p) w in
  let gained := timedelta.of_minutes (3 * Z.of_nat (length Es)) in
  exists seeder',
    fst run = Ok tt
    /\ table (snd run) = <[pk := seeder']> (table w)
    /\ seeding_time_balance seeder' = seeding_time_balance seeder + gained
    /\ total_seeding_time seeder' = total_seeding_time seeder + gained
    /\ steam_id_64 seeder' = steam_id_64 seeder
    /\ player_name seeder' = player_name seeder
    /\ discord_id seeder' = discord_id seeder.
Proof.
  revert w seeder.
  induction Es as [|E Es IH]; intros w seeder Hone Hacc run gained.
  - exists seeder. subst run gained.
    destruct (filter_rows_one
                (fun row => contains (player.steam_id_64 p) (steam_id_64 row))
                _ _ _ Hone) as [Hrow _].
    rewrite (list_insert_id _ _ _ Hrow).
    unfold timedelta.of_minutes. simpl. repeat split; lia.
  - pose proof (seed_player_accrues E url p w pk seeder Hone
                  (Hacc E _ (or_introl eq_refl))) as Hrun.
    cbv zeta in Hrun. fold (credit E seeder) in Hrun.
    destruct (filter_rows_one
                (fun row => contains (player.steam_id_64 p) (steam_id_64 row))
                _ _ _ Hone) as [Hrow Hmatch].
    subst run. cbn [for_each]. unfold mbind, M_bind. rewrite Hrun.
    match goal with
    | |- context [for_each Es _ ?w1] =>
        destruct (IH w1 (credit E seeder)) as (s' & Hok & Htbl & Hb & Ht & Hs
                                               & Hn & Hd)
    end.
    + cbn [table].
      apply (filter_rows_one_insert
               (fun row => contains (player.steam_id_64 p) (steam_id_64 row))
               _ _ seeder); [exact Hone|exact Hmatch].
    + intros E' row HE'. apply Hacc. now right.
    + exists s'. cbn [table] in Htbl.
      rewrite list_insert_insert_eq in Htbl.
      split; [exact Hok|]. split; [exact Htbl|].
      subst gained. rewrite Hb, Ht, Hs, Hn, Hd.
      unfold credit, Tasks.SEEDING_INCREMENT_TIMER, timedelta.of_minutes.
      cbn [seeding_time_balance total_seeding_time steam_id_64 player_name
           discord_id length].
      rewrite Nat2Z.inj_succ. repeat split; lia.
Qed.

Lemma accruals_add_up_witness :
  let run :=
    for_each
      [Sample.tick None None 1000; Sample.tick None None 2000;
       Sample.tick None None 3000]
      (fun E => Tasks.seed_player E "rcon1" Sample.ann_session)
      (World [Sample.ann_row (timedelta.of_minutes 6)] []) in
  exists seeder',
    table (snd run) = [seeder']
    /\ seeding_time_balance seeder' = timedelta.of_minutes 15
    /\ total_seeding_time seeder' = timedelta.of_minutes 15.
Proof.
  intros run.
  assert (Hacc : forall E row,
             In E [Sample.tick None None 1000; Sample.tick None None 2000;
                   Sample.tick None None 3000] ->
             Tasks.table_accepts E row = true).
  { intros E row [<-|[<-|[<-|[]]]]; reflexivity. }
  destruct (accruals_add_up
              [Sample.tick None None 1000; Sample.tick None None 2000;
               Sample.tick None None 3000]
              "rcon1" Sample.ann_session
              (World [Sample.ann_row (timedelta.of_minutes 6)] [])
              0%nat (Sample.ann_row (timedelta.of_minutes 6)) eq_refl Hacc)
    as (seeder' & _ & Htable & Hb & Ht & _).
  exists seeder'. split; [exact Htable|]. split; [exact Hb|exact Ht].
Defined.

(** ** The gate: its bounds, its window, and bounds with an offset *)

(** For bounds of one UTC offset, both naive for one: the start of the
    window is inside it, and the end of the window is inside it exactly when
    the window does not wrap past midnight. *)
Theorem is_now_at_the_bounds (start end_ : time.t) (w : world) :
  time.utcoffset start = time.utcoffset end_ ->
  Tasks.is_now start end_ start w = (Ok true, w)
  /\ Tasks.is_now start end_ end_ w = (Ok (time.leb start end_), w).
Proof.
  intros Hsame.
  rewrite (is_now_same_offset start end_ start),
    (is_now_same_offset start end_ end_) by congruence.
  assert (Hirr : time.ltb end_ end_ = false).
  { unfold time.ltb, time.compare. now rewrite !Z.compare_refl. }
  rewrite !time_leb_refl, Hirr.
  destruct (time.leb start end_); auto.
Qed.

Lemma is_now_at_the_bounds_witness :
  Tasks.is_now (time.mk 22 0 0 0) (time.mk 6 0 0 0) (time.mk 22 0 0 0)
    (World [] [])
  = (Ok true, World [] [])
  /\ Tasks.is_now (time.mk 22 0 0 0) (time.mk 6 0 0 0) (time.mk 6 0 0 0)
       (World [] [])
     = (Ok false, World [] []).
Proof.
  apply (is_now_at_the_bounds (time.mk 22 0 0 0) (time.mk 6 0 0 0)
           (World [] [])).
  reflexivity.
Defined.

(** For a start, an end and a current time of one UTC offset, all naive for
    one, and read as microseconds since midnight: [is_now] answers, and it
    answers true exactly when [start <= now <= end_] if [start <= end_], and
    exactly when [now >= start] or [now < end_] if [start > end_]. *)
Theorem is_now_window (start end_ now : time.t) (w : world) :
  time.valid start -> time.valid end_ -> time.valid now ->
  time.utcoffset start = time.utcoffset now ->
  time.utcoffset end_ = time.utcoffset now ->
  let s := time.since_midnight start in
  let e := time.since_midnight end_ in
  let n := time.since_midnight now in
  exists active,
    Tasks.is_now start end_ now w = (Ok active, w)
    /\ (s <= e -> (active = true <-> s <= n <= e))
    /\ (s > e -> (active = true <-> n >= s \/ n < e)).
Proof.
  intros Hs He Hn Hos Hoe s e n.
  pose proof (time_leb_since_midnight start end_ Hs He) as Hse.
  pose proof (time_leb_since_midnight start now Hs Hn) as Hsn.
  pose proof (time_leb_since_midnight now end_ Hn He) as Hne.
  pose proof (time_ltb_since_midnight now end_ Hn He) as Hlt.
  fold s e in Hse. fold s n in Hsn. fold n e in Hne, Hlt.
  eexists. split; [apply (is_now_same_offset start end_ now w Hos Hoe)|].
  split.
  - intros Hle. apply Hse in Hle. rewrite Hle, andb_true_iff. tauto.
  - intros Hgt.
    destruct (time.leb start end_); [pose proof (proj1 Hse eq_refl); lia|].
    rewrite orb_true_iff. rewrite Hsn, Hlt. lia.
Qed.

Lemma is_now_window_witness :
  Tasks.is_now (time.mk 22 0 0 0) (time.mk 6 0 0 0) (time.mk 23 30 0 0)
    (World [] [])
  = (Ok true, World [] []).
Proof.
  assert (Hv : forall h m, 0 <= h < 24 -> 0 <= m < 60 ->
                           time.valid (time.mk h m 0 0)).
  { intros h m Hh Hm. unfold time.valid. simpl. lia. }
  destruct (is_now_window (time.mk 22 0 0 0) (time.mk 6 0 0 0)
              (time.mk 23 30 0 0) (World [] [])
              (Hv 22 0 ltac:(lia) ltac:(lia)) (Hv 6 0 ltac:(lia) ltac:(lia))
              (Hv 23 30 ltac:(lia) ltac:(lia)) eq_refl eq_refl)
    as (active & Hrun & _ & Hwrap).
  rewrite Hrun. f_equal. f_equal.
  apply Hwrap; [vm_compute; reflexivity|left; vm_compute; discriminate].
Defined.

(** With both bounds set to texts that parse to times without UTC offset,
    [is_now] answers, and the tick polls the servers when the answer is true
    and only updates the presence when it is false. *)
Theorem naive_window_gates_the_tick
  (fromisoformat : string -> option time.t) (E : Tasks.env) (w : world)
  (s s' : string) (start end_ : time.t) :
  Tasks.seeding_start_time_utc (Tasks.global_config E) = Some s ->
  fromisoformat s = Some start ->
  Tasks.seeding_end_time_utc (Tasks.global_config E) = Some s' ->
  fromisoformat s' = Some end_ ->
  time.utcoffset start = None ->
  time.utcoffset end_ = None ->
  exists active,
    Tasks.is_now start end_ (time.naive (Tasks.time_now E)) w = (Ok active, w)
    /\ Tasks.update_seeders fromisoformat E w
       = if active then Tasks.poll_servers E w
         else Tasks.change_presence E Idle OutsideSeedingWindow w.
Proof.
  intros Hs Hstart Hs' Hend Hos Hoe.
  destruct (update_seeders_bounds fromisoformat E w s s' start end_
              Hs Hstart Hs' Hend) as [Hreturns _].
  eexists. split.
  - apply is_now_same_offset; [exact Hos|exact Hoe].
  - apply Hreturns. apply is_now_same_offset; [exact Hos|exact Hoe].
Qed.

Lemma naive_window_gates_the_tick_witness :
  Tasks.update_seeders Sample.hh_mm
    (Sample.tick (Some "13:00"%string) (Some "14:00"%string) 1000)
    (World [] [])
  = (Ok tt, World [] [ChangePresence Idle OutsideSeedingWindow]).
Proof.
  destruct (naive_window_gates_the_tick Sample.hh_mm
              (Sample.tick (Some "13:00"%string) (Some "14:00"%string) 1000)
              (World [] []) "13:00" "14:00"
              (time.mk 13 0 0 0) (time.mk 14 0 0 0)
              eq_refl eq_refl eq_refl eq_refl eq_refl eq_refl)
    as (active & Hrun & Htick).
  rewrite Htick. injection Hrun as <-. reflexivity.
Defined.

(** With both bounds set to texts that parse and one of them carrying a UTC
    offset, [is_now] raises [TypeError] against the naive current time, the
    task swallows it, and the tick polls the servers as a tick without gate
    does, whatever the time. *)
Theorem offset_bound_opens_the_gate
  (fromisoformat : string -> option time.t) (E : Tasks.env) (w : world)
  (s s' : string) (start end_ : time.t) :
  Tasks.seeding_start_time_utc (Tasks.global_config E) = Some s ->
  fromisoformat s = Some start ->
  Tasks.seeding_end_time_utc (Tasks.global_config E) = Some s' ->
  fromisoformat s' = Some end_ ->
  time.utcoffset start <> None \/ time.utcoffset end_ <> None ->
  Tasks.is_now start end_ (time.naive (Tasks.time_now E)) w
  = (Raised TypeError, w)
  /\ Tasks.update_seeders fromisoformat E w = Tasks.poll_servers E w.
Proof.
  intros Hs Hstart Hs' Hend Haware.
  destruct (update_seeders_bounds fromisoformat E w s s' start end_
              Hs Hstart Hs' Hend) as [_ Hraises].
  assert (His : Tasks.is_now start end_ (time.naive (Tasks.time_now E)) w
                = (Raised TypeError, w))
    by (apply is_now_offset_raises; [reflexivity|exact Haware]).
  split; [exact His|exact (Hraises His)].
Qed.

Lemma offset_bound_opens_the_gate_witness :
  let E := Sample.tick (Some "06:00+02:00"%string) (Some "08:00"%string) 1000 in
  Tasks.update_seeders Sample.hh_mm_offset E (World [] [])
  = Tasks.poll_servers E (World [] []).
Proof.
  intros E.
  refine (proj2 (offset_bound_opens_the_gate Sample.hh_mm_offset E
                   (World [] []) "06:00+02:00" "08:00"
                   (time.Time 6 0 0 0 (Some (timedelta.of_minutes 120)))
                   (time.mk 8 0 0 0)
                   eq_refl eq_refl eq_refl eq_refl _)).
  left. discriminate.
Defined.

(** ** The commands: every way through [claim] *)

Lemma claim_paths (decode : string -> datetime.t) (E : Commands.env)
  (ctx : Commands.author) (hours : Z) (w : world) :
  claim_path decode E ctx hours w
    (Commands.claim decode E ctx (Some hours) w).
Proof.
  assert (Hp : Commands.get_player_by_discord_id (Commands.id ctx) w
               = (Ok (List.find
                        (fun r => bool_decide
                                    (discord_id (snd r)
                                     = Some (Commands.id ctx)))
                        (rows (table w))), w)) by reflexivity.
  destruct (List.find _ (rows (table w))) as [[pk player]|].
  2: { rewrite (claim_not_found decode E ctx hours w Hp).
       now apply PathNotFound. }
  destruct (hours >? timedelta.seconds (seeding_time_balance player) / 3600)
    eqn:Hh.
  { rewrite (claim_not_enough decode E ctx hours w pk player Hp Hh).
    now apply (PathNotEnough _ _ _ _ _ pk player). }
  destruct (Commands.all_differ_from_first
              (map snd (Commands.vip_dict E (steam_id_64 player)))) eqn:Hd.
  { rewrite (claim_differs decode E ctx hours w pk player Hp Hh Hd).
    now apply (PathDiffers _ _ _ _ _ pk player). }
  destruct (all_differ_from_first_last _ Hd) as [vip Hlast].
  apply (PathChecked _ _ _ _ _ pk player vip); try assumption.
  rewrite (claim_run decode E ctx hours w pk player vip Hp Hh Hd Hlast).
  apply get_player_by_discord_id_found in Hp as [Hrow _].
  destruct (_ >=? Commands.far_future) eqn:Hfar.
  { apply Z.geb_le in Hfar.
    unfold save, Commands.respond, emit, mbind, M_bind.
    destruct (Commands.table_accepts E player) eqn:Hacc; cbn [table trace].
    - rewrite (list_insert_id _ _ _ Hrow), <- app_assoc.
      now apply PathNoNeed.
    - now apply PathNoNeedRefused. }
  assert (Hnear : Commands.claimed_expiration decode E vip hours
                  < Commands.far_future).
  { rewrite Z.geb_leb in Hfar. now apply Z.leb_gt in Hfar. }
  destruct (List.find _ (Commands.grant_results E _ _ _))
    as [[rcon ok]|] eqn:Hfind.
  { cbn [trace]. rewrite <- app_assoc. now apply (PathGrantProblem _ _ _ _ _ _ _ rcon ok). }
  unfold save, Commands.respond, emit, mbind, M_bind.
  destruct (Commands.table_accepts E _) eqn:Hacc; cbn [table trace].
  - rewrite <- app_assoc. now apply PathSpent.
  - now apply PathSpentRefused.
Qed.

Lemma seconds_nonneg (d : timedelta.t) : 0 <= timedelta.seconds d.
Proof.
  unfold timedelta.seconds. apply Z.div_pos; [|lia].
  apply Z.mod_pos_bound. lia.
Qed.

Lemma banked_hours_within_balance (d : timedelta.t) :
  0 <= d -> timedelta.of_hours (timedelta.seconds d / 3600) <= d.
Proof.
  intros Hd. unfold timedelta.of_hours, timedelta.seconds.
  pose proof (Z.mod_le d 86400000000 Hd ltac:(lia)) as Hmod.
  pose proof (Z.mod_pos_bound d 86400000000 ltac:(lia)) as Hpos.
  rewrite Z.div_div by lia.
  pose proof (Z.mul_div_le (d mod 86400000000) (1000000 * 3600) ltac:(lia)).
  lia.
Qed.

Lemma strftime_mono (a b : datetime.t) :
  a <= b -> datetime.strftime a <= datetime.strftime b.
Proof.
  intros Hab. unfold datetime.strftime.
  apply Z.mul_le_mono_nonneg_r; [lia|]. apply Z.div_le_mono; lia.
Qed.

Lemma strftime_le (a : datetime.t) : datetime.strftime a <= a.
Proof.
  unfold datetime.strftime. rewrite Z.mul_comm. apply Z.mul_div_le. lia.
Qed.

Lemma expiration_base_not_past (decode : string -> datetime.t)
  (E : Commands.env) (vip : option Commands.vip_info) :
  Commands.now E <= Commands.expiration_base decode E vip.
Proof.
  unfold Commands.expiration_base.
  destruct (Commands.expiration_text vip) as [text|]; [|lia].
  cbv zeta. destruct (Z.ltb_spec (decode text) (Commands.now E)); lia.
Qed.

(** Case analysis on the way a run of [claim] went. *)
Ltac claim_cases decode E ctx hours w :=
  let r := fresh "r" in
  let Hpath := fresh "Hpath" in
  pose proof (claim_paths decode E ctx hours w) as Hpath;
  revert Hpath;
  generalize (Commands.claim decode E ctx (Some hours) w);
  intros r Hpath;
  destruct Hpath as
    [Hp|pk player Hp Hh|pk player Hp Hh Hd|pk player vip r Hp Hh Hd Hlast Hc];
  [| | |destruct Hc as
          [pk player vip Hfar Hacc|pk player vip Hfar Hacc
          |pk player vip rcon ok Hnear Hfind|pk player vip Hnear Hfind Hacc
          |pk player vip Hnear Hfind Hacc]].

(** ** The commands: what [claim] keeps *)

(** A run of [claim], with or without an amount, never raises [IndexError]:
    [vip_entries[0]] is read and the last entry is taken only from a list
    that is not empty, the command having answered before on an empty
    one. *)
Theorem claim_never_raises_index_error
  (decode : string -> datetime.t) (E : Commands.env) (ctx : Commands.author)
  (hours : option Z) (w : world) :
  fst (Commands.claim decode E ctx hours w) <> Raised IndexError.
Proof.
  destruct hours as [hours|]; [|discriminate].
  claim_cases decode E ctx hours w; simpl; discriminate.
Qed.

(** A run of [claim] with an amount keeps the number of rows, and every row
    keeps its Steam id, name, Discord id, total and last check; its balance
    is as before, or the row is registered to the caller and its balance is
    lower by the amount in hours. *)
Theorem claim_touches_one_balance
  (decode : string -> datetime.t) (E : Commands.env) (ctx : Commands.author)
  (hours : Z) (w : world) :
  let w' := snd (Commands.claim decode E ctx (Some hours) w) in
  length (table w') = length (table w)
  /\ forall pk row,
       table w !! pk = Some row ->
       exists row',
         table w' !! pk = Some row'
         /\ steam_id_64 row' = steam_id_64 row
         /\ player_name row' = player_name row
         /\ discord_id row' = discord_id row
         /\ total_seeding_time row' = total_seeding_time row
         /\ last_seed_check row' = last_seed_check row
         /\ (seeding_time_balance row' = seeding_time_balance row
             \/ (discord_id row = Some (Commands.id ctx)
                 /\ seeding_time_balance row'
                    = seeding_time_balance row - timedelta.of_hours hours)).
Proof.
  cbv zeta.
  claim_cases decode E ctx hours w; cbn [snd table];
    try (split; [reflexivity|]; intros pk0 row Hrow; exists row; tauto).
  apply get_player_by_discord_id_found in Hp as [Hplayer Hdiscord].
  split; [apply length_insert|].
  intros pk0 row Hrow.
  destruct (decide (pk = pk0)) as [<-|Hne].
  - rewrite Hplayer in Hrow. injection Hrow as <-.
    exists (Commands.spend hours player). split.
    + apply list_lookup_insert_eq. now apply lookup_lt_Some in Hplayer.
    + simpl. tauto.
  - exists row. rewrite list_lookup_insert_ne by exact Hne. tauto.
Qed.

(** A run of [claim] with an amount, of either sign, on a table without
    negative balances and totals ends in a table without negative balances
    and totals: the spend never exceeds the balance. *)
Theorem claim_keeps_balances_nonneg
  (decode : string -> datetime.t) (E : Commands.env) (ctx : Commands.author)
  (hours : Z) (w : world) :
  balances_nonneg (table w) ->
  balances_nonneg (table (snd (Commands.claim decode E ctx (Some hours) w))).
Proof.
  intros Hw.
  claim_cases decode E ctx hours w; cbn [snd table]; try exact Hw.
  apply get_player_by_discord_id_found in Hp as [Hplayer _].
  apply Forall_insert; [exact Hw|].
  pose proof (proj1 (Forall_lookup _ _) Hw pk player Hplayer) as [Hb Ht].
  pose proof (banked_hours_within_balance _ Hb) as Hbanked.
  rewrite Z.gtb_ltb in Hh. apply Z.ltb_ge in Hh.
  simpl. unfold timedelta.of_hours in *. lia.
Qed.

Lemma claim_keeps_balances_nonneg_witness :
  balances_nonneg
    (table (snd (Commands.claim Sample.rcon_times
                   (Sample.call None None true true) Sample.ann (Some 2)
                   (World [Sample.ann_row (timedelta.of_hours 3)] [])))).
Proof.
  apply (claim_keeps_balances_nonneg Sample.rcon_times
           (Sample.call None None true true) Sample.ann 2
           (World [Sample.ann_row (timedelta.of_hours 3)] [])).
  constructor; [|constructor]. simpl. unfold timedelta.of_hours. lia.
Defined.

(** Every grant a run of [claim] sends carries an expiration before
    2200-01-01 UTC and not before the second of the current instant plus the
    hours granted. *)
Theorem claim_grants_within_bounds
  (decode : string -> datetime.t) (E : Commands.env) (ctx : Commands.author)
  (hours : Z) (w : world) (evs : list event) (name steam : string)
  (expiration : datetime.t) :
  trace (snd (Commands.claim decode E ctx (Some hours) w)) = trace w ++ evs ->
  In (GrantVip name steam expiration) evs ->
  expiration < Commands.far_future
  /\ datetime.strftime
       (Commands.now E
        + timedelta.of_hours
            (Commands.seeder_vip_reward_hours (Commands.global_config E)
             * hours))
     <= expiration.
Proof.
  assert (Hbounds : forall vip,
             Commands.claimed_expiration decode E vip hours
             < Commands.far_future ->
             datetime.strftime (Commands.claimed_expiration decode E vip hours)
             < Commands.far_future
             /\ datetime.strftime
                  (Commands.now E
                   + timedelta.of_hours
                       (Commands.seeder_vip_reward_hours
                          (Commands.global_config E) * hours))
                <= datetime.strftime
                     (Commands.claimed_expiration decode E vip hours)).
  { intros vip Hnear. split.
    - pose proof (strftime_le
                    (Commands.claimed_expiration decode E vip hours)). lia.
    - apply strftime_mono. unfold Commands.claimed_expiration.
      pose proof (expiration_base_not_past decode E vip). lia. }
  claim_cases decode E ctx hours w; cbn [snd trace]; intros Hevs Hin;
    apply app_inv_head in Hevs; subst evs;
    repeat (destruct Hin as [Hin|Hin]; try discriminate Hin);
    try contradiction;
    injection Hin as <- <- <-; now apply Hbounds.
Qed.

Lemma claim_grants_within_bounds_witness :
  datetime.utc 2024 1 1 + timedelta.of_hours 2 < Commands.far_future
  /\ datetime.strftime (datetime.utc 2024 1 1 + timedelta.of_hours (1 * 2))
     <= datetime.utc 2024 1 1 + timedelta.of_hours 2.
Proof.
  apply (claim_grants_within_bounds Sample.rcon_times
           (Sample.call None None true true) Sample.ann 2
           (World [Sample.ann_row (timedelta.of_hours 3)] [])
           (trace (snd (Commands.claim Sample.rcon_times
                          (Sample.call None None true true) Sample.ann
                          (Some 2)
                          (World [Sample.ann_row (timedelta.of_hours 3)] []))))
           "Ann" Sample.ann_steam).
  - reflexivity.
  - right; left; reflexivity.
Defined.

(** [claim] sets no lower bound on the amount: a claim of a negative number
    of hours passes the balance check whatever the balance, and when the
    servers take the grant and the table the write, the balance is saved
    higher than it was, by that many hours. *)
Theorem claim_of_negative_hours_raises_balance
  (decode : string -> datetime.t) (E : Commands.env) (ctx : Commands.author)
  (hours : Z) (w : world) (pk : nat) (player : HLL_Player)
  (vip : option Commands.vip_info) :
  let expiration := Commands.claimed_expiration decode E vip hours in
  hours < 0 ->
  Commands.get_player_by_discord_id (Commands.id ctx) w
  = (Ok (Some (pk, player)), w) ->
  last (map snd (Commands.vip_dict E (steam_id_64 player))) = Some vip ->
  expiration < Commands.far_future ->
  (forall rcon ok,
      In (rcon, ok)
        (Commands.grant_results E (player_name player) (steam_id_64 player)
           (datetime.strftime expiration)) ->
      ok = true) ->
  Commands.table_accepts E (Commands.spend hours player) = true ->
  table (snd (Commands.claim decode E ctx (Some hours) w))
  = <[pk := Commands.spend hours player]> (table w)
  /\ seeding_time_balance (Commands.spend hours player)
     = seeding_time_balance player + timedelta.of_hours (- hours)
  /\ seeding_time_balance player
     < seeding_time_balance (Commands.spend hours player).
Proof.
  intros expiration Hneg Hp Hlast Hnear Hall Hacc.
  assert (Hh : (hours >? timedelta.seconds (seeding_time_balance player) / 3600)
               = false).
  { rewrite Z.gtb_ltb. apply Z.ltb_ge.
    pose proof (seconds_nonneg (seeding_time_balance player)).
    assert (0 <= timedelta.seconds (seeding_time_balance player) / 3600)
      by (apply Z.div_pos; lia).
    lia. }
  assert (Hd : Commands.all_differ_from_first
                 (map snd (Commands.vip_dict E (steam_id_64 player))) = false).
  { destruct (Commands.all_differ_from_first _) eqn:Hd; [|reflexivity].
    apply all_differ_from_first_nil in Hd. rewrite Hd in Hlast.
    discriminate. }
  rewrite (claim_run decode E ctx hours w pk player vip Hp Hh Hd Hlast).
  fold expiration.
  assert (Hgeb : (expiration >=? Commands.far_future) = false).
  { rewrite Z.geb_leb. now apply Z.leb_gt. }
  rewrite Hgeb.
  assert (Hfind : List.find (fun r => negb (snd r))
                    (Commands.grant_results E (player_name player)
                       (steam_id_64 player) (datetime.strftime expiration))
                  = None).
  { destruct (List.find _ _) as [[rcon ok]|] eqn:Hfind; [|reflexivity].
    apply find_some in Hfind as [Hin Hok]. apply Hall in Hin. subst ok.
    discriminate. }
  rewrite Hfind.
  unfold save, Commands.respond, emit, mbind, M_bind. rewrite Hacc.
  cbn [snd table]. split; [reflexivity|].
  unfold Commands.spend, timedelta.of_hours. simpl. lia.
Qed.

Lemma claim_of_negative_hours_raises_balance_witness :
  table (snd (Commands.claim Sample.rcon_times
                (Sample.call None None true true) Sample.ann (Some (-5))
                (World [Sample.ann_row (timedelta.of_hours 3)] [])))
  = <[0%nat := Commands.spend (-5) (Sample.ann_row (timedelta.of_hours 3))]>
      [Sample.ann_row (timedelta.of_hours 3)]
  /\ seeding_time_balance
       (Commands.spend (-5) (Sample.ann_row (timedelta.of_hours 3)))
     = timedelta.of_hours 3 + timedelta.of_hours (- -5)
  /\ timedelta.of_hours 3
     < seeding_time_balance
         (Commands.spend (-5) (Sample.ann_row (timedelta.of_hours 3))).
Proof.
  apply (claim_of_negative_hours_raises_balance Sample.rcon_times
           (Sample.call None None true true) Sample.ann (-5)
           (World [Sample.ann_row (timedelta.of_hours 3)] [])
           0%nat (Sample.ann_row (timedelta.of_hours 3)) None).
  - lia.
  - reflexivity.
  - reflexivity.
  - reflexivity.
  - intros rcon ok [H|[H|[]]]; now injection H as _ <-.
  - reflexivity.
Defined.

(** ** The commands: [vip] *)

(** [vip] only reads: it returns, leaves the table as it was, sends no grant
    and ends with exactly one answer to the caller. *)
Theorem vip_only_reads
  (decode : string -> datetime.t) (E : Commands.env) (ctx : Commands.author)
  (w : world) :
  exists evs r,
    Commands.vip decode E ctx w
    = (Ok tt, World (table w) (trace w ++ evs ++ [Respond r]))
    /\ (evs = [] \/ exists steam, evs = [GetVip steam]).
Proof.
  unfold Commands.vip.
  unfold mbind at 1. unfold M_bind at 1.
  unfold Commands.get_player_by_discord_id.
  destruct (List.find _ (rows (table w))) as [[pk player]|].
  2: { exists [], UnknownDiscordId. split; [reflexivity|now left]. }
  unfold Commands.get_vip, Commands.pop, Commands.respond, emit, mbind,
    M_bind, mret, M_ret.
  cbv beta iota.
  destruct (Commands.all_differ_from_first _) eqn:Hd.
  { exists [GetVip (steam_id_64 player)], VipStatusDiffers.
    cbn [table trace]. rewrite <- app_assoc.
    split; [reflexivity|right; now eexists]. }
  destruct (all_differ_from_first_last _ Hd) as [vip Hlast]. rewrite Hlast.
  cbn [table trace].
  destruct (Commands.expiration_text vip) as [text|].
  2: { exists [GetVip (steam_id_64 player)], NoVipRecord.
       cbn [table trace]. rewrite <- app_assoc.
       split; [reflexivity|right; now eexists]. }
  destruct (decode text <? Commands.now E);
    [|destruct (decode text >=? Commands.far_future)];
    eexists [GetVip (steam_id_64 player)], _;
    cbn [table trace]; rewrite <- app_assoc;
    (split; [reflexivity|right; now eexists]).
Qed.

(** When the client reports no server at all, [vip] and [claim] answer that
    the VIP status differs between servers, and [claim] spends nothing. *)
Theorem no_server_reads_as_disagreement
  (decode : string -> datetime.t) (E : Commands.env) (ctx : Commands.author)
  (hours : Z) (w : world) (pk : nat) (player : HLL_Player) :
  Commands.get_player_by_discord_id (Commands.id ctx) w
  = (Ok (Some (pk, player)), w) ->
  Commands.vip_dict E (steam_id_64 player) = [] ->
  Commands.vip decode E ctx w
  = (Ok tt,
     World (table w)
       (trace w ++ [GetVip (steam_id_64 player); Respond VipStatusDiffers]))
  /\ ((hours >? timedelta.seconds (seeding_time_balance player) / 3600)
      = false ->
      Commands.claim decode E ctx (Some hours) w
      = (Ok tt,
         World (table w)
           (trace w ++
            [GetVip (steam_id_64 player); Respond VipStatusDiffers]))).
Proof.
  intros Hp Hnone. split.
  - unfold Commands.vip.
    unfold mbind at 1. unfold M_bind at 1. rewrite Hp.
    unfold Commands.get_vip, Commands.respond, emit, mbind, M_bind, mret,
      M_ret.
    cbv beta iota. rewrite Hnone. cbn [map Commands.all_differ_from_first
                                       forallb table trace].
    now rewrite <- app_assoc.
  - intros Hh. apply (claim_differs decode E ctx hours w pk player Hp Hh).
    now rewrite Hnone.
Qed.

Lemma no_server_reads_as_disagreement_witness :
  let E :=
    {| Commands.global_config := {| Commands.seeder_vip_reward_hours := 1 |};
       Commands.now := datetime.utc 2024 1 1;
       Commands.vip_dict := fun _ => [];
       Commands.grant_results := fun _ _ _ => [];
       Commands.table_accepts := fun _ => true |} in
  Commands.vip Sample.rcon_times E Sample.ann
    (World [Sample.ann_row (timedelta.of_hours 3)] [])
  = (Ok tt,
     World [Sample.ann_row (timedelta.of_hours 3)]
       [GetVip Sample.ann_steam; Respond VipStatusDiffers]).
Proof.
  intros E.
  apply (no_server_reads_as_disagreement Sample.rcon_times E Sample.ann 2
           (World [Sample.ann_row (timedelta.of_hours 3)] [])
           0%nat (Sample.ann_row (timedelta.of_hours 3)));
    reflexivity.
Defined.

(** ** The commands: registration and lookup *)

Lemma register_new_row (E : Commands.env) (ctx : Commands.author)
  (steam64 : string) (w : world) :
  (forall row, In row (table w) ->
     String.eqb (steam_id_64 row) steam64 = false) ->
  Commands.table_accepts E (registered_row E ctx steam64) = true ->
  Commands.register E ctx steam64 w
  = (Ok tt,
     World (table w ++ [registered_row E ctx steam64])
       (trace w ++ [Respond RegisteredToYou])).
Proof.
  intros Hnone Hacc.
  unfold Commands.register, HLL_Player_filter.
  unfold mbind at 1. unfold M_bind at 1.
  rewrite (filter_rows_nil (fun row => String.eqb (steam_id_64 row) steam64)
             _ Hnone).
  fold (registered_row E ctx steam64).
  unfold save_new, Commands.respond, emit, mbind, M_bind.
  now rewrite Hacc.
Qed.

(** Register, then look up: after [register] for a Steam id that has no row,
    by a caller whose Discord id has none either, the lookup by that Steam
    id and the lookup by that Discord id both find the row just made and no
    other, with a balance and a total of zero. *)
Theorem register_then_lookup
  (E : Commands.env) (ctx : Commands.author) (steam64 : string) (w : world) :
  (forall row, In row (table w) ->
     String.eqb (steam_id_64 row) steam64 = false) ->
  (forall row, In row (table w) ->
     bool_decide (discord_id row = Some (Commands.id ctx)) = false) ->
  Commands.table_accepts E (registered_row E ctx steam64) = true ->
  let w' := snd (Commands.register E ctx steam64 w) in
  let made := (length (table w), registered_row E ctx steam64) in
  HLL_Player_filter (fun row => String.eqb (steam_id_64 row) steam64) w'
  = (Ok [made], w')
  /\ HLL_Player_filter
       (fun row => bool_decide (discord_id row = Some (Commands.id ctx))) w'
     = (Ok [made], w')
  /\ seeding_time_balance (snd made) = 0
  /\ total_seeding_time (snd made) = 0.
Proof.
  intros Hsteam Hdiscord Hacc. cbv zeta.
  rewrite (register_new_row E ctx steam64 w Hsteam Hacc). cbn [snd].
  unfold HLL_Player_filter. cbn [table].
  rewrite rows_snoc, !List.filter_app.
  rewrite (filter_rows_nil (fun row => String.eqb (steam_id_64 row) steam64)
             _ Hsteam).
  rewrite (filter_rows_nil
             (fun row => bool_decide (discord_id row = Some (Commands.id ctx)))
             _ Hdiscord).
  cbn [List.filter snd steam_id_64 discord_id registered_row app].
  rewrite String.eqb_refl, bool_decide_eq_true_2 by reflexivity.
  repeat split.
Qed.

Lemma register_then_lookup_witness :
  let E := Sample.call None None true true in
  let w' := snd (Commands.register E Sample.ann Sample.ann_steam
                   (World [] [])) in
  HLL_Player_filter (fun row => bool_decide (discord_id row = Some 42)) w'
  = (Ok [(0%nat, registered_row E Sample.ann Sample.ann_steam)], w').
Proof.
  intros E.
  apply (register_then_lookup E Sample.ann Sample.ann_steam (World [] [])).
  - intros row [].
  - intros row [].
  - reflexivity.
Defined.



(** Registering twice: after a [register] that answered that the Steam id
    is now registered to the caller, a second [register] of the same Steam
    id by the same caller answers that it is already registered to them and
    leaves the table as it is. *)
Theorem register_twice
  (E1 E2 : Commands.env) (ctx : Commands.author) (steam64 : string)
  (w w1 : world) :
  Commands.register E1 ctx steam64 w = (Ok tt, w1) ->
  last (trace w1) = Some (Respond RegisteredToYou) ->
  Commands.register E2 ctx steam64 w1
  = (Ok tt,
     World (table w1) (trace w1 ++ [Respond AlreadyRegisteredToYou])).
Proof.
  intros Hrun Hlast.
  assert (Hone : exists pk row,
             List.filter (fun r => String.eqb (steam_id_64 (snd r)) steam64)
               (rows (table w1))
             = [(pk, row)]
             /\ discord_id row = Some (Commands.id ctx)).
  { revert Hrun. unfold Commands.register, HLL_Player_filter.
    unfold mbind at 1. unfold M_bind at 1.
    destruct (List.filter _ (rows (table w))) as [|[pk p] [|]] eqn:Hf.
    - unfold save_new, Commands.respond, emit, mbind, M_bind.
      destruct (Commands.table_accepts E1 _); [|discriminate].
      intros [= <-]. cbn [table].
      eexists _, _. rewrite rows_snoc, List.filter_app, Hf.
      cbn [List.filter snd steam_id_64 app]. rewrite String.eqb_refl.
      split; reflexivity.
    - destruct (discord_id p) as [owner|] eqn:Hd.
      + unfold Commands.respond, emit.
        destruct (owner =? Commands.id ctx); intros [= <-];
          cbn [trace] in Hlast; rewrite last_snoc in Hlast; discriminate.
      + unfold save, Commands.respond, emit, mbind, M_bind.
        destruct (Commands.table_accepts E1 _); [|discriminate].
        intros [= <-]. cbn [table].
        destruct (filter_rows_one
                    (fun row => String.eqb (steam_id_64 row) steam64)
                    _ _ _ Hf) as [_ Hmatch].
        eexists pk, _. split.
        * apply (filter_rows_one_insert
                   (fun row => String.eqb (steam_id_64 row) steam64) _ _ p);
            [exact Hf|exact Hmatch].
        * reflexivity.
    - unfold Commands.respond, emit, mbind, M_bind. intros [= <-].
      cbn [trace] in Hlast. rewrite last_snoc in Hlast. discriminate. }
  destruct Hone as (pk & row & Hf & Hd).
  unfold Commands.register, HLL_Player_filter.
  unfold mbind at 1. unfold M_bind at 1.
  rewrite Hf, Hd, Z.eqb_refl. reflexivity.
Qed.

Lemma register_twice_witness :
  let E := Sample.call None None true true in
  let w1 := snd (Commands.register E Sample.ann Sample.ann_steam
                   (World [] [])) in
  Commands.register E Sample.ann Sample.ann_steam w1
  = (Ok tt,
     World (table w1) (trace w1 ++ [Respond AlreadyRegisteredToYou])).
Proof.
  intros E w1.
  apply (register_twice E E Sample.ann Sample.ann_steam (World [] []) w1);
    reflexivity.
Defined.

(** ** The commands: [vip] and [claim] together *)

(** What [vip] has looked at when it answers that the VIP does not expire. *)
Lemma vip_does_not_expire_inv
  (decode : string -> datetime.t) (E : Commands.env) (ctx : Commands.author)
  (w w' : world) :
  Commands.vip decode E ctx w = (Ok tt, w') ->
  last (trace w') = Some (Respond VipDoesNotExpire) ->
  exists pk player vip text,
    Commands.get_player_by_discord_id (Commands.id ctx) w
    = (Ok (Some (pk, player)), w)
    /\ Commands.all_differ_from_first
         (map snd (Commands.vip_dict E (steam_id_64 player))) = false
    /\ last (map snd (Commands.vip_dict E (steam_id_64 player))) = Some vip
    /\ Commands.expiration_text vip = Some text
    /\ Commands.far_future <= decode text.
Proof.
  unfold Commands.vip.
  unfold mbind at 1. unfold M_bind at 1.
  assert (Hp : Commands.get_player_by_discord_id (Commands.id ctx) w
               = (Ok (List.find
                        (fun r => bool_decide
                                    (discord_id (snd r)
                                     = Some (Commands.id ctx)))
                        (rows (table w))), w)) by reflexivity.
  rewrite Hp.
  destruct (List.find _ (rows (table w))) as [[pk player]|].
  2: { intros [= <-]. cbn [trace]. rewrite last_snoc. discriminate. }
  unfold Commands.get_vip, Commands.pop, Commands.respond, emit, mbind,
    M_bind, mret, M_ret.
  cbv beta iota.
  destruct (Commands.all_differ_from_first _) eqn:Hd.
  { intros [= <-]. cbn [trace]. rewrite last_snoc. discriminate. }
  destruct (all_differ_from_first_last _ Hd) as [vip Hlast]. rewrite Hlast.
  cbn [table trace].
  destruct (Commands.expiration_text vip) as [text|] eqn:Htext.
  2: { intros [= <-]. cbn [trace]. rewrite last_snoc. discriminate. }
  destruct (decode text <? Commands.now E).
  { intros [= <-]. cbn [trace]. rewrite last_snoc. discriminate. }
  destruct (decode text >=? Commands.far_future) eqn:Hfar.
  2: { intros [= <-]. cbn [trace]. rewrite last_snoc. discriminate. }
  intros _ _. apply Z.geb_le in Hfar.
  now exists pk, player, vip, text.
Qed.

(** Where [vip] answers that the VIP does not expire, a [claim] in the same
    world, for an amount that is not negative at a rate that is not
    negative, sends no grant and leaves the table as it was. *)
Theorem non_expiring_vip_is_not_converted
  (decode : string -> datetime.t) (E : Commands.env) (ctx : Commands.author)
  (hours : Z) (w wv : world) (evs : list event) :
  Commands.vip decode E ctx w = (Ok tt, wv) ->
  last (trace wv) = Some (Respond VipDoesNotExpire) ->
  0 <= hours ->
  0 <= Commands.seeder_vip_reward_hours (Commands.global_config E) ->
  let w' := snd (Commands.claim decode E ctx (Some hours) w) in
  trace w' = trace w ++ evs ->
  table w' = table w
  /\ forall name steam expiration,
       ~ In (GrantVip name steam expiration) evs.
Proof.
  intros Hvip Hanswer Hhours Hrate.
  destruct (vip_does_not_expire_inv decode E ctx w wv Hvip Hanswer)
    as (pk0 & player0 & vip0 & text & Hp0 & Hd0 & Hlast0 & Htext & Hfar0).
  assert (Hbeyond : Commands.far_future
                    <= Commands.claimed_expiration decode E vip0 hours).
  { unfold Commands.claimed_expiration, Commands.expiration_base.
    rewrite Htext. cbv zeta. unfold timedelta.of_hours.
    destruct (Z.ltb_spec (decode text) (Commands.now E)); nia. }
  cbv zeta.
  claim_cases decode E ctx hours w; cbn [snd table trace]; intros Hevs;
    apply app_inv_head in Hevs; subst evs;
    try (rewrite Hp in Hp0; injection Hp0 as <- <-);
    try discriminate;
    try (rewrite Hlast in Hlast0; injection Hlast0 as <-);
    try lia;
    try (split; [reflexivity|];
         intros name steam expiration Hin;
         repeat (destruct Hin as [Hin|Hin]; try discriminate Hin);
         contradiction).
Qed.

Lemma non_expiring_vip_is_not_converted_witness :
  let never := Sample.expires "2199-12-31T12:00:00" in
  let decode := fun _ : string => datetime.utc 2300 1 1 in
  let E := Sample.call never never true true in
  let w := World [Sample.ann_row (timedelta.of_hours 3)] [] in
  table (snd (Commands.claim decode E Sample.ann (Some 2) w)) = table w.
Proof.
  intros never decode E w.
  refine (proj1 (non_expiring_vip_is_not_converted decode E Sample.ann 2 w
                   (snd (Commands.vip decode E Sample.ann w))
                   (trace (snd (Commands.claim decode E Sample.ann (Some 2) w)))
                   eq_refl eq_refl _ _ eq_refl)).
  - lia.
  - simpl. lia.
Defined.

(** [register] on a table without negative balances and totals ends in a
    table without negative balances and totals. *)
Theorem register_keeps_balances_nonneg
  (E : Commands.env) (ctx : Commands.author) (steam64 : string) (w : world) :
  balances_nonneg (table w) ->
  balances_nonneg (table (snd (Commands.register E ctx steam64 w))).
Proof.
  intros Hw.
  unfold Commands.register, HLL_Player_filter.
  unfold mbind at 1. unfold M_bind at 1.
  destruct (List.filter _ (rows (table w))) as [|[pk p] [|]] eqn:Hf.
  - unfold save_new, Commands.respond, emit, mbind, M_bind.
    destruct (Commands.table_accepts E _); cbn [snd table]; [|exact Hw].
    apply Forall_app. split; [exact Hw|].
    constructor; [|constructor]. simpl. unfold timedelta.of_minutes. lia.
  - destruct (filter_rows_one
                (fun row => String.eqb (steam_id_64 row) steam64)
                _ _ _ Hf) as [Hrow _].
    pose proof (proj1 (Forall_lookup _ _) Hw pk p Hrow) as Hp.
    destruct (discord_id p) as [owner|].
    + destruct (owner =? Commands.id ctx); exact Hw.
    + unfold save, Commands.respond, emit, mbind, M_bind.
      destruct (Commands.table_accepts E _); cbn [snd table]; [|exact Hw].
      apply Forall_insert; [exact Hw|exact Hp].
  - exact Hw.
Qed.

Lemma register_keeps_balances_nonneg_witness :
  balances_nonneg
    (table (snd (Commands.register (Sample.call None None true true)
                   Sample.ann "76561198000000002"
                   (World [Sample.ann_row (timedelta.of_hours 3)] [])))).
Proof.
  apply (register_keeps_balances_nonneg (Sample.call None None true true)
           Sample.ann "76561198000000002"
           (World [Sample.ann_row (timedelta.of_hours 3)] [])).
  constructor; [|constructor]. simpl. unfold timedelta.of_hours. lia.
Defined.
